(** * Financial analytics pipeline: ingestion, storage and report

    A shallow embedding of [data_fetcher.py], [database.py] and [main.py].
    Python exceptions are an error monad, the provider, the clock and the
    database commits are explicit oracles, the [stock_prices] table is a
    list of rows, and [time.sleep] and the HTTP requests are recorded in a
    trace of events. *)

From Stdlib Require Import ZArith List String Ascii Bool Lia PeanoNat.
From Stdlib Require Import Sorting.Sorted Sorting.Permutation.
From Stdlib Require Import PrimFloat Uint63 SpecFloat FloatOps.
Import ListNotations.

Set Warnings "-register-all".
Local Open Scope list_scope.

(** ** Python runtime *)

Module Py.

(** The exception classes that the three source files can meet. All of them
    derive from [Exception]. *)
Inductive exn : Type :=
  | KeyError
  | ValueError
  | TypeError
  | AttributeError
  | ZeroDivisionError
  | OverflowError
  | RequestException
  | HTTPError
  | JSONDecodeError
  | IntegrityError
  | OperationalError.

Definition exn_eqb (a b : exn) : bool :=
  match a, b with
  | KeyError, KeyError | ValueError, ValueError | TypeError, TypeError
  | AttributeError, AttributeError | ZeroDivisionError, ZeroDivisionError
  | OverflowError, OverflowError | RequestException, RequestException
  | HTTPError, HTTPError | JSONDecodeError, JSONDecodeError
  | IntegrityError, IntegrityError | OperationalError, OperationalError => true
  | _, _ => false
  end.

(** A computation either returns a value or raises. *)
Inductive result (A : Type) : Type :=
  | Return (a : A)
  | Raise (e : exn).

Arguments Return {A} a.
Arguments Raise {A} e.

Definition bind {A B : Type} (c : result A) (k : A -> result B) : result B :=
  match c with
  | Return a => k a
  | Raise e => Raise e
  end.

(** [try: c  except Exception: h] *)
Definition try_except {A : Type} (c : result A) (h : exn -> result A) : result A :=
  match c with
  | Return a => Return a
  | Raise e => h e
  end.

(** [try: c  except (e1, e2, ...): h]; an exception outside [classes]
    propagates. *)
Definition try_except_in {A : Type} (classes : list exn) (c : result A)
    (h : exn -> result A) : result A :=
  match c with
  | Return a => Return a
  | Raise e => if existsb (exn_eqb e) classes then h e else Raise e
  end.

(** Values produced by [response.json()]. A Python [dict] keeps insertion
    order, so an object is an association list. *)
Inductive json : Type :=
  | JNull
  | JBool (b : bool)
  | JInt (z : Z)
  | JFloat (f : float)
  | JStr (s : string)
  | JArr (l : list json)
  | JObj (kv : list (string * json)).

Fixpoint assoc {V : Type} (key : string) (kv : list (string * V)) : option V :=
  match kv with
  | [] => None
  | (k, v) :: rest => if String.eqb k key then Some v else assoc key rest
  end.

Fixpoint is_substring (p s : string) : bool :=
  String.prefix p s ||
  match s with
  | EmptyString => false
  | String _ s' => is_substring p s'
  end.

(** [key in c] for a [str] key. *)
Definition py_contains (key : string) (c : json) : result bool :=
  match c with
  | JObj kv => Return (match assoc key kv with Some _ => true | None => false end)
  | JArr l =>
      Return (existsb (fun v => match v with
                                | JStr s => String.eqb s key
                                | _ => false
                                end) l)
  | JStr s => Return (is_substring key s)
  | JNull | JBool _ | JInt _ | JFloat _ => Raise TypeError
  end.

(** [c[key]] for a [str] key: only a dict can be indexed by a string. *)
Definition py_getitem (c : json) (key : string) : result json :=
  match c with
  | JObj kv =>
      match assoc key kv with
      | Some v => Return v
      | None => Raise KeyError
      end
  | _ => Raise TypeError
  end.

(** [len(c)] *)
Definition py_len (c : json) : result nat :=
  match c with
  | JObj kv => Return (List.length kv)
  | JArr l => Return (List.length l)
  | JStr s => Return (String.length s)
  | JNull | JBool _ | JInt _ | JFloat _ => Raise TypeError
  end.

(** [c.items()] *)
Definition py_items (c : json) : result (list (string * json)) :=
  match c with
  | JObj kv => Return kv
  | _ => Raise AttributeError
  end.

(** Truth value of [if c:]. *)
Definition py_truthy (c : json) : bool :=
  match c with
  | JNull => false
  | JBool b => b
  | JInt z => negb (Z.eqb z 0)
  | JFloat f => negb (PrimFloat.eqb f 0%float)
  | JStr s => negb (String.eqb s EmptyString)
  | JArr l => match l with [] => false | _ => true end
  | JObj kv => match kv with [] => false | _ => true end
  end.

(** Calendar part of a [datetime] built by [strptime(_, '%Y-%m-%d')]. *)
Record datetime : Type := mk_datetime {
  year : Z;
  month : Z;
  day : Z
}.

Definition datetime_eqb (a b : datetime) : bool :=
  Z.eqb (year a) (year b) && Z.eqb (month a) (month b) && Z.eqb (day a) (day b).

(** [a < b] on datetimes. *)
Definition datetime_ltb (a b : datetime) : bool :=
  Z.ltb (year a) (year b) ||
  (Z.eqb (year a) (year b) &&
   (Z.ltb (month a) (month b) ||
    (Z.eqb (month a) (month b) && Z.ltb (day a) (day b)))).

(** The text-to-number grammars of the interpreter are not part of the
    repository: they are an interface. [None] stands for [ValueError],
    except in [int_to_float], where it stands for [OverflowError]. *)
Class Builtins : Type := {
  str_to_float : string -> option float;
  str_to_int : string -> option Z;
  int_to_float : Z -> option float;
  float_to_int : float -> result Z;
  strptime_ymd : string -> option datetime
}.

Section Coercions.
Context `{Builtins}.

(** [float(v)] *)
Definition py_float (v : json) : result float :=
  match v with
  | JStr s =>
      match str_to_float s with
      | Some f => Return f
      | None => Raise ValueError
      end
  | JFloat f => Return f
  | JInt z =>
      match int_to_float z with
      | Some f => Return f
      | None => Raise OverflowError
      end
  | JBool b => Return (if b then 1%float else 0%float)
  | JNull | JArr _ | JObj _ => Raise TypeError
  end.

(** [int(v)] *)
Definition py_int (v : json) : result Z :=
  match v with
  | JStr s =>
      match str_to_int s with
      | Some z => Return z
      | None => Raise ValueError
      end
  | JInt z => Return z
  | JFloat f => float_to_int f
  | JBool b => Return (if b then 1%Z else 0%Z)
  | JNull | JArr _ | JObj _ => Raise TypeError
  end.

(** [datetime.strptime(s, '%Y-%m-%d')] *)
Definition py_strptime (s : string) : result datetime :=
  match strptime_ymd s with
  | Some d => Return d
  | None => Raise ValueError
  end.
End Coercions.

End Py.

Export Py.

Declare Scope py_scope.
Delimit Scope py_scope with py.
Notation "x <- c ;; k" := (bind c (fun x => k))
  (at level 61, c at next level, right associativity) : py_scope.
Notation "c ;;; k" := (bind c (fun _ => k))
  (at level 61, right associativity) : py_scope.
Local Open Scope py_scope.
Local Open Scope string_scope.
Local Open Scope list_scope.

(** ** Format specifications *)

Module PyFormat.

(** What [format(value, spec)] checks before it renders, for the three kinds
    of value the report prints: the grammar
    [[[fill]align][sign][#][0][width][grouping][.precision][type]] read left
    to right, then the presentation types the kind of value accepts. A
    specification that is refused raises [ValueError]. The rendered text is
    not modelled. *)
Inductive value_kind : Type :=
  | FmtStr
  | FmtInt
  | FmtFloat.

Record format_spec : Type := mk_format_spec {
  fs_align : option ascii;
  fs_sign : option ascii;
  fs_alternate : bool;
  fs_grouping : option ascii;
  fs_precision : bool;
  fs_type : option ascii
}.

Definition ascii_in (cs : list ascii) (c : ascii) : bool :=
  existsb (Ascii.eqb c) cs.

Definition is_align : ascii -> bool := ascii_in ["<"; ">"; "="; "^"]%char.
Definition is_sign : ascii -> bool := ascii_in ["+"; "-"; " "]%char.
Definition is_grouping : ascii -> bool := ascii_in [","; "_"]%char.

Definition is_digit (c : ascii) : bool :=
  Nat.leb 48 (nat_of_ascii c) && Nat.leb (nat_of_ascii c) 57.

(** An alignment character, alone or after a fill character. *)
Definition take_align (s : string) : option ascii * string :=
  match s with
  | String fill (String a rest) =>
      if is_align a then (Some a, rest)
      else if is_align fill then (Some fill, String a rest)
      else (None, s)
  | String a EmptyString => if is_align a then (Some a, EmptyString) else (None, s)
  | EmptyString => (None, s)
  end.

Definition take_one (p : ascii -> bool) (s : string) : option ascii * string :=
  match s with
  | String c rest => if p c then (Some c, rest) else (None, s)
  | EmptyString => (None, s)
  end.

Fixpoint drop_digits (s : string) : string :=
  match s with
  | String c rest => if is_digit c then drop_digits rest else s
  | EmptyString => s
  end.

Definition is_some {A : Type} (o : option A) : bool :=
  match o with Some _ => true | None => false end.

Definition parse_format_spec (s : string) : option format_spec :=
  let (align, s) := take_align s in
  let (sign, s) := take_one is_sign s in
  let (alt, s) := take_one (Ascii.eqb "#") s in
  let (_, s) := take_one (Ascii.eqb "0") s in
  let s := drop_digits s in
  let (grouping, s) := take_one is_grouping s in
  let precision :=
    match s with
    | String "." (String d rest) =>
        if is_digit d then Some (true, drop_digits rest) else None
    | String "." EmptyString => None
    | _ => Some (false, s)
    end in
  match precision with
  | None => None                      (* Format specifier missing precision *)
  | Some (prec, s) =>
      match s with
      | EmptyString => Some (mk_format_spec align sign (is_some alt) grouping prec None)
      | String t EmptyString =>
          Some (mk_format_spec align sign (is_some alt) grouping prec (Some t))
      | _ => None                     (* Invalid format specifier *)
      end
  end.

Definition float_types : list ascii := ["e"; "E"; "f"; "F"; "g"; "G"; "n"; "%"]%char.
Definition int_types : list ascii := ["b"; "c"; "d"; "o"; "x"; "X"; "n"]%char.

Definition type_in (ts : list ascii) (t : option ascii) : bool :=
  match t with
  | Some c => ascii_in ts c
  | None => false
  end.

Definition accepts (k : value_kind) (fs : format_spec) : bool :=
  match k with
  | FmtFloat => negb (is_some (fs_type fs)) || type_in float_types (fs_type fs)
  | FmtInt =>
      type_in float_types (fs_type fs) && negb (type_in ["n"]%char (fs_type fs)) ||
      (negb (is_some (fs_type fs)) || type_in int_types (fs_type fs)) &&
      negb (fs_precision fs)
  | FmtStr =>
      (negb (is_some (fs_type fs)) || type_in ["s"]%char (fs_type fs)) &&
      negb (is_some (fs_sign fs)) && negb (fs_alternate fs) &&
      negb (is_some (fs_grouping fs)) &&
      negb (type_in ["="]%char (fs_align fs))
  end.

(** [format(value, spec)] for a value of kind [k]. *)
Definition py_format (k : value_kind) (spec : string) : result unit :=
  match parse_format_spec spec with
  | Some fs => if accepts k fs then Return tt else Raise ValueError
  | None => Raise ValueError
  end.

(** The replacement fields of one f-string, left to right. *)
Fixpoint format_fields (fields : list (value_kind * string)) : result unit :=
  match fields with
  | [] => Return tt
  | (k, spec) :: rest => bind (py_format k spec) (fun _ => format_fields rest)
  end.

End PyFormat.

Export PyFormat.

(** ** Records and rows *)

Module Rows.

(** One parsed day of one symbol: the dict built by [parse_stock_data], and,
    passed as keyword arguments to [StockPrice], one row of [stock_prices]. The surrogate
    [id] column is assigned by the database and read nowhere in the
    pipeline; it is left out. [created_at] is the clock reading of
    [datetime.now()]. *)
Record StockPrice : Type := mk_StockPrice {
  symbol : string;
  date : datetime;
  open_price : float;
  high_price : float;
  low_price : float;
  close_price : float;
  volume : Z;
  created_at : Z
}.

(** A Python dict from symbols to values, in insertion order. *)
Definition dict (V : Type) : Type := list (string * V).

(** [d[k] = v]: an existing key keeps its position. *)
Fixpoint dict_set {V : Type} (d : dict V) (k : string) (v : V) : dict V :=
  match d with
  | [] => [(k, v)]
  | (k', v') :: rest =>
      if String.eqb k' k then (k', v) :: rest else (k', v') :: dict_set rest k v
  end.

Definition dict_get {V : Type} (d : dict V) (k : string) : option V := assoc k d.

End Rows.

Export Rows.

(** ** data_fetcher.py *)

Module Fetcher.

(** What one [requests.get] ... [response.json()] sequence can do. *)
Inductive http_outcome : Type :=
  | ConnectionFailed            (* requests.get raises *)
  | BadStatus                   (* raise_for_status raises *)
  | BodyNotJson                 (* response.json() raises *)
  | Body (data : json).

(** Observable effects of the batch fetch. *)
Inductive event : Type :=
  | Request (symbol : string)
  | Sleep (seconds : Z).


Definition http_get (o : http_outcome) : result json :=
  match o with
  | ConnectionFailed => Raise RequestException
  | BadStatus => Raise HTTPError
  | BodyNotJson => Raise JSONDecodeError
  | Body data => Return data
  end.

(** Lines 28-54 of [fetch_daily_data], the body of its [try]. *)
Definition fetch_daily_data_body (o : http_outcome) : result (option json) :=
  data <- http_get o ;;
  has_error <- py_contains "Error Message" data ;;
  if has_error then
    py_getitem data "Error Message" ;;; Return None
  else
    has_note <- py_contains "Note" data ;;
    if has_note then
      py_getitem data "Note" ;;; Return None
    else
      has_series <- py_contains "Time Series (Daily)" data ;;
      if negb has_series then Return None
      else
        time_series <- py_getitem data "Time Series (Daily)" ;;
        py_len time_series ;;;
        Return (Some time_series).

(** [fetch_daily_data]: every exception of the body becomes [None]. *)
Definition fetch_daily_data (o : http_outcome) : result (option json) :=
  try_except (fetch_daily_data_body o) (fun _ => Return None).

Section Parse.
Context `{Builtins}.

(** The dict literal of lines 65-74; its entries are evaluated in order. *)
Definition parse_record (symbol : string) (date_str : string) (values : json)
    (now : Z) : result StockPrice :=
  d <- py_strptime date_str ;;
  o <- (v <- py_getitem values "1. open" ;; py_float v) ;;
  h <- (v <- py_getitem values "2. high" ;; py_float v) ;;
  l <- (v <- py_getitem values "3. low" ;; py_float v) ;;
  c <- (v <- py_getitem values "4. close" ;; py_float v) ;;
  vol <- (v <- py_getitem values "5. volume" ;; py_int v) ;;
  Return (mk_StockPrice symbol d o h l c vol now).

(** The [for] loop of [parse_stock_data]; [k] counts the entries already
    visited and [clock k] is what [datetime.now()] reads at entry [k]. *)
Fixpoint parse_loop (symbol : string) (clock : nat -> Z) (k : nat)
    (items : list (string * json)) (parsed_data : list StockPrice)
    : result (list StockPrice) :=
  match items with
  | [] => Return parsed_data
  | (date_str, values) :: rest =>
      parsed_data' <-
        try_except_in [KeyError; ValueError]
          (record <- parse_record symbol date_str values (clock k) ;;
           Return (parsed_data ++ [record]))
          (fun _ => Return parsed_data) ;;
      parse_loop symbol clock (S k) rest parsed_data'
  end.

Definition parse_stock_data (symbol : string) (clock : nat -> Z)
    (time_series_data : json) : result (list StockPrice) :=
  items <- py_items time_series_data ;;
  parse_loop symbol clock 0 items [].

(** [if time_series:] on the value returned by [fetch_daily_data]. *)
Definition truthy (time_series : option json) : bool :=
  match time_series with
  | Some ts => py_truthy ts
  | None => false
  end.

(** The [for i, symbol in enumerate(symbols)] loop. [provider i symbol] is
    what the provider does at request [i]; [clock i] is the clock during
    the parse of request [i]. The trace keeps the events that happened,
    also when the loop is left by an exception. *)
Fixpoint fetch_loop (provider : nat -> string -> http_outcome)
    (clock : nat -> nat -> Z) (delay : Z) (len : nat) (i : nat)
    (symbols : list string) (all_data : dict (list StockPrice))
    (tr : list event) : list event * result (dict (list StockPrice)) :=
  match symbols with
  | [] => (tr, Return all_data)
  | symbol :: rest =>
      let tr := tr ++ [Request symbol] in
      match fetch_daily_data (provider i symbol) with
      | Raise e => (tr, Raise e)
      | Return time_series =>
          match (if truthy time_series then time_series else None) with
          | Some ts =>
              match parse_stock_data symbol (clock i) ts with
              | Raise e => (tr, Raise e)
              | Return parsed_data =>
                  let all_data := dict_set all_data symbol parsed_data in
                  let tr := if Nat.ltb i (len - 1) then tr ++ [Sleep delay] else tr in
                  fetch_loop provider clock delay len (S i) rest all_data tr
              end
          | None =>
              fetch_loop provider clock delay len (S i) rest
                (dict_set all_data symbol []) tr
          end
      end
  end.

Definition fetch_multiple_symbols (provider : nat -> string -> http_outcome)
    (clock : nat -> nat -> Z) (symbols : list string) (delay : Z)
    : list event * result (dict (list StockPrice)) :=
  fetch_loop provider clock delay (List.length symbols) 0 symbols [] [].
End Parse.

End Fetcher.

Export Fetcher.

(** ** database.py *)

Module Database.

Definition table : Type := list StockPrice.

(** [filter_by(symbol=s, date=d)] *)
Definition has_key (s : string) (d : datetime) (row : StockPrice) : bool :=
  String.eqb (symbol row) s && datetime_eqb (date row) d.

(** An ORM session on the table: the rows committed so far, and the rows
    added in the open transaction. The session autoflushes, so a query sees
    both. *)
Record session : Type := mk_session {
  committed : table;
  pending : table
}.

Definition get_session (db : table) : session := mk_session db [].

Definition visible (s : session) : table := committed s ++ pending s.

(** [session.query(StockPrice).filter_by(symbol=s, date=d).first()] *)
Definition query_first (s : session) (sym : string) (d : datetime)
    : option StockPrice :=
  find (has_key sym d) (visible s).

(** [session.add(row)], flushed: the unique index [idx_symbol_date] of
    [__table_args__] refuses a second row with the same (symbol, date). The
    flush happens at the next query or at the commit; both are inside the
    same [try] as the [add]. A row that the database refuses for its data
    (a value out of the range of its column) is not told apart here: it
    ends the store phase as a refused commit of its symbol does, with the
    same table and the same return value, and is accounted for by the
    commit oracle of [session_commit]. *)
Definition session_add (s : session) (row : StockPrice) : result session :=
  if existsb (has_key (symbol row) (date row)) (visible s)
  then Raise IntegrityError
  else Return (mk_session (committed s) (pending s ++ [row])).

(** [session.commit()]; [ok] tells whether the database accepts it. *)
Definition session_commit (ok : bool) (s : session) : result session :=
  if ok then Return (mk_session (committed s ++ pending s) [])
  else Raise OperationalError.

Definition session_rollback (s : session) : session :=
  mk_session (committed s) [].

(** [session.close()]: what is not committed is gone. *)
Definition session_close (s : session) : table := committed s.

(** [order_by(StockPrice.date.desc())], as an insertion sort. *)
Fixpoint insert_desc (row : StockPrice) (sorted : table) : table :=
  match sorted with
  | [] => [row]
  | r :: rest =>
      if datetime_ltb (date row) (date r)
      then r :: insert_desc row rest
      else row :: sorted
  end.

Fixpoint order_by_date_desc (rows : table) : table :=
  match rows with
  | [] => []
  | r :: rest => insert_desc r (order_by_date_desc rest)
  end.

(** [session.query(StockPrice).filter_by(symbol=s).order_by(date.desc())] *)
Definition query_symbol_desc (db : table) (s : string) : table :=
  order_by_date_desc (filter (fun row => String.eqb (symbol row) s) db).

End Database.

Export Database.

(** ** main.py *)

Module Pipeline.

(** [self.symbols] *)
Definition self_symbols : list string := ["JPM"; "BAC"; "WFC"; "GS"; "MS"].

(** What the run cannot decide by itself. *)
Record environment : Type := mk_environment {
  connection_ok : bool;                       (* test_connection() *)
  tables_ok : bool;                           (* create_tables() *)
  provider : nat -> string -> http_outcome;   (* request number, symbol *)
  clock : nat -> nat -> Z;                    (* request number, entry *)
  commit_ok : nat -> bool                     (* number of the commit *)
}.

Definition setup_database (env : environment) : bool :=
  if negb (connection_ok env) then false
  else if negb (tables_ok env) then false
  else true.

(** The locals of [fetch_and_store_data]. *)
Record ingest : Type := mk_ingest {
  sess : session;
  total_stored : nat;
  total_skipped : nat
}.

(** Lines 55-67: [for record in records]. The state is returned also when
    the loop is left by an exception. *)
Fixpoint store_records (records : list StockPrice) (st : ingest)
    : ingest * result unit :=
  match records with
  | [] => (st, Return tt)
  | record :: rest =>
      match query_first (sess st) (symbol record) (date record) with
      | Some _ =>
          store_records rest
            (mk_ingest (sess st) (total_stored st) (total_skipped st + 1))
      | None =>
          match session_add (sess st) record with
          | Raise e => (st, Raise e)
          | Return s =>
              store_records rest
                (mk_ingest s (total_stored st + 1) (total_skipped st))
          end
      end
  end.

(** Lines 52-70: [for symbol, records in all_data.items()], with one commit
    for each symbol; [k] numbers the commits. *)
Fixpoint store_symbols (ok : nat -> bool) (k : nat)
    (items : dict (list StockPrice)) (st : ingest) : ingest * result unit :=
  match items with
  | [] => (st, Return tt)
  | (_, records) :: rest =>
      match store_records records st with
      | (st1, Raise e) => (st1, Raise e)
      | (st1, Return _) =>
          match session_commit (ok k) (sess st1) with
          | Raise e => (st1, Raise e)
          | Return s =>
              store_symbols ok (S k) rest
                (mk_ingest s (total_stored st1) (total_skipped st1))
          end
      end
  end.

(** Lines 47-83: the session, the [try], its [except] and its [finally].
    [Some (stored, skipped)] is the logged summary and the return value
    [True]; [None] is the return value [False]. *)
Definition store_all_data (ok : nat -> bool) (all_data : dict (list StockPrice))
    (db : table) : table * option (nat * nat) :=
  match store_symbols ok 0 all_data (mk_ingest (get_session db) 0 0) with
  | (st, Return _) =>
      (session_close (sess st), Some (total_stored st, total_skipped st))
  | (st, Raise _) =>
      (session_close (session_rollback (sess st)), None)
  end.

Section Run.
Context `{Builtins}.

(** [fetch_and_store_data]: the batch fetch of line 45 is outside the
    [try], so what it raises leaves the method. *)
Definition fetch_and_store_data (env : environment) (symbols : list string)
    (db : table) : list event * table * result (option (nat * nat)) :=
  match fetch_multiple_symbols (provider env) (clock env) symbols 12 with
  | (tr, Raise e) => (tr, db, Raise e)
  | (tr, Return all_data) =>
      let (db', summary) := store_all_data (commit_ok env) all_data db in
      (tr, db', Return summary)
  end.

(** What [generate_analytics_report] printed, and the values its locals
    [change] and [pct_change] took. *)
Record report : Type := mk_report {
  latest_lines : list (string * datetime * float * Z);
  computed : list (string * float * float);
  metric_lines : list (string * float * float)
}.

(** Lines 107-114: the latest price of each symbol. *)
Fixpoint latest_prices (db : table) (symbols : list string) (out : report)
    : report * result unit :=
  match symbols with
  | [] => (out, Return tt)
  | symbol :: rest =>
      match query_symbol_desc db symbol with
      | latest :: _ =>
          match format_fields [(FmtStr, "<10"); (FmtStr, "<12");
                               (FmtFloat, "<14.2f"); (FmtInt, ">14,")] with
          | Raise e => (out, Raise e)
          | Return _ =>
              latest_prices db rest
                (mk_report
                   (latest_lines out ++
                    [(Rows.symbol latest, date latest, close_price latest,
                      volume latest)])
                   (computed out) (metric_lines out))
          end
      | [] => latest_prices db rest out
      end
  end.

(** Lines 120-132: the day-over-day change of each symbol. A float division
    by zero raises. *)
Fixpoint performance_metrics (db : table) (symbols : list string) (out : report)
    : report * result unit :=
  match symbols with
  | [] => (out, Return tt)
  | symbol :: rest =>
      match firstn 2 (query_symbol_desc db symbol) with
      | [current; previous] =>
          let change := PrimFloat.sub (close_price current) (close_price previous) in
          if PrimFloat.eqb (close_price previous) 0%float
          then (out, Raise ZeroDivisionError)
          else
            let pct_change :=
              PrimFloat.mul (PrimFloat.div change (close_price previous)) 100%float in
            let out := mk_report (latest_lines out)
                         (computed out ++ [(symbol, change, pct_change)])
                         (metric_lines out) in
            match format_fields [(FmtStr, "<10"); (FmtFloat, "+.2f:<13");
                                 (FmtFloat, "+.2f")] with
            | Raise e => (out, Raise e)
            | Return _ =>
                performance_metrics db rest
                  (mk_report (latest_lines out) (computed out)
                     (metric_lines out ++ [(symbol, change, pct_change)]))
            end
      | _ => performance_metrics db rest out
      end
  end.

(** [generate_analytics_report]: the body of the [try] and, second, the
    exception that its [except] logged. The overview printed from
    [get_table_stats] has its own [try] and a valid format; it is left
    out. *)
Definition generate_analytics_report (db : table) (symbols : list string)
    : report * option exn :=
  match latest_prices db symbols (mk_report [] [] []) with
  | (out, Raise e) => (out, Some e)
  | (out, Return _) =>
      match performance_metrics db symbols out with
      | (out, Raise e) => (out, Some e)
      | (out, Return _) => (out, None)
      end
  end.

Record run_result : Type := mk_run_result {
  run_events : list event;
  run_table : table;
  run_returned : result bool;
  run_report : option (report * option exn)
}.

(** [run]: setup, ingest, report. *)
Definition run (env : environment) (symbols : list string) (db : table)
    : run_result :=
  if negb (setup_database env) then mk_run_result [] db (Return false) None
  else
    match fetch_and_store_data env symbols db with
    | (tr, db', Raise e) => mk_run_result tr db' (Raise e) None
    | (tr, db', Return None) => mk_run_result tr db' (Return false) None
    | (tr, db', Return (Some _)) =>
        mk_run_result tr db' (Return true)
          (Some (generate_analytics_report db' symbols))
    end.
End Run.

End Pipeline.

Export Pipeline.

(** ** A reference interpreter for the examples *)

Module Reference.

(** An instance of [Builtins] to run the model on concrete provider
    payloads. It reads plain decimal text ([150], [-3], [153.00]) with at
    most fifteen significant digits, where one correctly rounded division
    gives the float the interpreter gives, and dates written
    [YYYY-M-D] with one or two digits of month and day. Text outside that
    fragment is refused; the examples stay inside it. *)

Definition digit_value (c : ascii) : Z := Z.of_nat (nat_of_ascii c) - 48.

Fixpoint digits_value (s : string) (acc : Z) : option Z :=
  match s with
  | EmptyString => Some acc
  | String c rest =>
      if is_digit c then digits_value rest (10 * acc + digit_value c) else None
  end.

Definition unsigned_int (s : string) : option Z :=
  match s with
  | EmptyString => None
  | _ => digits_value s 0
  end.

Definition split_sign (s : string) : bool * string :=
  match s with
  | String "-" rest => (true, rest)
  | String "+" rest => (false, rest)
  | _ => (false, s)
  end.

Fixpoint split_on (sep : ascii) (s : string) : list string :=
  match s with
  | EmptyString => [EmptyString]
  | String c rest =>
      if Ascii.eqb c sep then EmptyString :: split_on sep rest
      else
        match split_on sep rest with
        | part :: parts => String c part :: parts
        | [] => [String c EmptyString]
        end
  end.

Definition ref_str_to_int (s : string) : option Z :=
  let (neg, body) := split_sign s in
  option_map (fun z => if neg then (- z)%Z else z) (unsigned_int body).

(** Nearest float of an integer; [None] when it is out of range. *)
Definition ref_int_to_float (z : Z) : option float :=
  match binary_normalize prec emax z 0 false with
  | S754_infinity _ => None
  | sf => Some (SF2Prim sf)
  end.

Definition exact_ratio (neg : bool) (m : Z) (k : nat) : option float :=
  if (Z.ltb m (2 ^ 53) && Nat.leb k 22)%bool then
    match ref_int_to_float m, ref_int_to_float (10 ^ Z.of_nat k) with
    | Some a, Some b =>
        let q := PrimFloat.div a b in
        Some (if neg then PrimFloat.opp q else q)
    | _, _ => None
    end
  else None.

Definition ref_str_to_float (s : string) : option float :=
  let (neg, body) := split_sign s in
  match split_on "." body with
  | [whole] =>
      match unsigned_int whole with
      | Some m => exact_ratio neg m 0
      | None => None
      end
  | [whole; frac] =>
      match digits_value whole 0, digits_value frac 0 with
      | Some a, Some b =>
          if (Nat.eqb (String.length whole) 0 && Nat.eqb (String.length frac) 0)%bool
          then None
          else exact_ratio neg (a * 10 ^ Z.of_nat (String.length frac) + b)
                 (String.length frac)
      | _, _ => None
      end
  | _ => None
  end.

(** [int(f)] truncates; it refuses a NaN and an infinity. *)
Definition ref_float_to_int (f : float) : result Z :=
  match Prim2SF f with
  | S754_zero _ => Return 0%Z
  | S754_nan => Raise ValueError
  | S754_infinity _ => Raise OverflowError
  | S754_finite neg m e =>
      let v := if Z.leb 0 e then (Z.pos m * 2 ^ e)%Z else (Z.pos m / 2 ^ (- e))%Z in
      Return (if neg then (- v)%Z else v)
  end.

Definition is_leap (y : Z) : bool :=
  (Z.eqb (y mod 4) 0 && (negb (Z.eqb (y mod 100) 0) || Z.eqb (y mod 400) 0))%bool.

Definition days_in_month (y m : Z) : Z :=
  if Z.eqb m 2 then (if is_leap y then 29 else 28)
  else if (Z.eqb m 4 || Z.eqb m 6 || Z.eqb m 9 || Z.eqb m 11)%bool then 30
  else 31.

Definition short_number (s : string) : option Z :=
  if (Nat.leb 1 (String.length s) && Nat.leb (String.length s) 2)%bool
  then digits_value s 0 else None.

Definition ref_strptime_ymd (s : string) : option datetime :=
  match split_on "-" s with
  | [ys; ms; ds] =>
      match (if Nat.eqb (String.length ys) 4 then digits_value ys 0 else None),
            short_number ms, short_number ds with
      | Some y, Some m, Some d =>
          if (Z.leb 1 y && Z.leb 1 m && Z.leb m 12 && Z.leb 1 d &&
              Z.leb d (days_in_month y m))%bool
          then Some (mk_datetime y m d) else None
      | _, _, _ => None
      end
  | _ => None
  end.

#[export] Instance reference_builtins : Builtins := {
  str_to_float := ref_str_to_float;
  str_to_int := ref_str_to_int;
  int_to_float := ref_int_to_float;
  float_to_int := ref_float_to_int;
  strptime_ymd := ref_strptime_ymd
}.

End Reference.

Export Reference.

(** ** Provider payloads used in the examples *)

Module Examples.

Definition day_entry (o h l c v : json) : json :=
  JObj [("1. open", o); ("2. high", h); ("3. low", l); ("4. close", c);
        ("5. volume", v)].

Definition series_two_days : json :=
  JObj [("2024-01-02", day_entry (JStr "151.00") (JStr "154.00") (JStr "150.50")
                         (JStr "153.00") (JStr "1200"));
        ("2024-01-01", day_entry (JStr "149.00") (JStr "151.00") (JStr "148.00")
                         (JStr "150.00") (JStr "1000"))].

(** As [series_two_days], with a close that is not a number in text. *)
Definition series_text_close : json :=
  JObj [("2024-01-02", day_entry (JStr "151.00") (JStr "154.00") (JStr "150.50")
                         (JStr "153.00") (JStr "1200"));
        ("2024-01-01", day_entry (JStr "149.00") (JStr "151.00") (JStr "148.00")
                         (JStr "n/a") (JStr "1000"))].

(** As [series_two_days], with a JSON [null] as one close. *)
Definition series_null_close : json :=
  JObj [("2024-01-02", day_entry (JStr "151.00") (JStr "154.00") (JStr "150.50")
                         (JStr "153.00") (JStr "1200"));
        ("2024-01-01", day_entry (JStr "149.00") (JStr "151.00") (JStr "148.00")
                         JNull (JStr "1000"))].

Definition daily (series : json) : http_outcome :=
  Body (JObj [("Meta Data", JObj []); ("Time Series (Daily)", series)]).

Definition rate_limit_note : http_outcome :=
  Body (JObj [("Note", JStr "API call frequency exceeded")]).

Definition error_message : http_outcome :=
  Body (JObj [("Error Message", JStr "Invalid API call")]).

Definition no_clock : nat -> Z := fun _ => 0%Z.

End Examples.

Export Examples.

(** ** Vocabulary of the properties *)

Section EntryOutcomes.
Context `{Builtins}.

(** A day-entry that becomes a record. *)
Definition entry_parses (e : string * json) : Prop :=
  forall sym now, exists r, parse_record sym (fst e) (snd e) now = Return r.

(** A day-entry with a missing field or a field whose text is not a number:
    the coercion raises [KeyError] or [ValueError]. *)
Definition entry_dropped (e : string * json) : Prop :=
  forall sym now,
    parse_record sym (fst e) (snd e) now = Raise KeyError \/
    parse_record sym (fst e) (snd e) now = Raise ValueError.
End EntryOutcomes.

(** The series that the batch loop goes on to parse at request [i]: what
    [fetch_daily_data] returned, if it is truthy. [None] is a failed
    fetch (or an empty series). *)
Definition fetched (provider : nat -> string -> http_outcome) (i : nat)
    (symbol : string) : option json :=
  match fetch_daily_data (provider i symbol) with
  | Return time_series => if truthy time_series then time_series else None
  | Raise _ => None
  end.

(** No parser exception leaves the batch: every series fetched for
    [symbols], numbered from [i0], is one on which the parser returns. *)
Definition parser_returns `{Builtins} (provider : nat -> string -> http_outcome)
    (clock : nat -> nat -> Z) (i0 : nat) (symbols : list string) : Prop :=
  forall j s ts,
    nth_error symbols j = Some s ->
    fetched provider (i0 + j) s = Some ts ->
    exists recs, parse_stock_data s (clock (i0 + j)) ts = Return recs.

(** What the batch loop stores for [symbol] at request [i]: the parsed
    series, or the empty list after a failed fetch. *)
Definition stored_for `{Builtins} (provider : nat -> string -> http_outcome)
    (clock : nat -> nat -> Z) (i : nat) (symbol : string) : list StockPrice :=
  match fetched provider i symbol with
  | Some ts =>
      match parse_stock_data symbol (clock i) ts with
      | Return recs => recs
      | Raise _ => []
      end
  | None => []
  end.

(** Position [j] is the last request for [s] in [symbols]. *)
Definition last_request (symbols : list string) (j : nat) (s : string) : Prop :=
  nth_error symbols j = Some s /\
  forall j', j < j' -> nth_error symbols j' <> Some s.

(** A provider that answers the first request with a rate-limit note and
    the later ones with two days of data. *)
Definition note_then_data : nat -> string -> http_outcome :=
  fun i _ => if Nat.eqb i 0 then rate_limit_note else daily series_two_days.


Definition requests (tr : list event) : list string :=
  flat_map (fun e => match e with Request s => [s] | Sleep _ => [] end) tr.

(** The events of a batch that runs to its end: a request for each symbol,
    and a delay after a symbol that is not the last one and whose fetch
    gave a series. *)
Fixpoint expected_events (provider : nat -> string -> http_outcome) (delay : Z)
    (len i : nat) (symbols : list string) : list event :=
  match symbols with
  | [] => []
  | s :: rest =>
      Request s ::
      (if is_some (fetched provider i s) && Nat.ltb i (len - 1)
       then [Sleep delay] else []) ++
      expected_events provider delay len (S i) rest
  end.


(** ** Vocabulary of the store properties *)

(** The columns of the unique index. *)
Definition key (row : StockPrice) : string * datetime := (symbol row, date row).

(** No two rows share a (symbol, date) pair. *)
Definition unique_keys (t : table) : Prop := NoDup (map key t).

(** The number of parsed records of a batch, over all its symbols. *)
Definition total_records (all_data : dict (list StockPrice)) : nat :=
  fold_right (fun entry n => List.length (snd entry) + n) 0 all_data.

(** [a] is not earlier than [b]: the order of a list sorted by date,
    newest first. *)
Definition not_earlier (a b : StockPrice) : Prop :=
  datetime_ltb (date a) (date b) = false.

(** The tables that runs of the ingestion build from the empty table,
    whatever is fetched and whichever commits fail. *)
Inductive reachable : table -> Prop :=
  | reachable_empty : reachable []
  | reachable_ingest (ok : nat -> bool) (all_data : dict (list StockPrice))
      (db : table) :
      reachable db -> reachable (fst (store_all_data ok all_data db)).

(** ** Rows and runs used in the examples *)

Module Samples.

(** A row of January 2024 with the same price in every column. *)
Definition january (s : string) (d : Z) (price : float) : StockPrice :=
  mk_StockPrice s (mk_datetime 2024 1 d) price price price price 1000 0.

(** Two symbols; the first batch repeats one day. *)
Definition two_symbols_batch : dict (list StockPrice) :=
  [("JPM", [january "JPM" 1 150; january "JPM" 2 153; january "JPM" 1 150]);
   ("BAC", [january "BAC" 1 30; january "BAC" 2 33])].

Definition all_commits : nat -> bool := fun _ => true.

(** The commit of the third symbol is refused. *)
Definition third_commit_refused : nat -> bool := fun k => negb (Nat.eqb k 2).

(** The table after [two_symbols_batch], entered out of calendar order. *)
Definition two_symbols_table : table :=
  [january "JPM" 2 153; january "BAC" 1 30; january "JPM" 1 150;
   january "BAC" 2 33].

(** Every request answered with the same two days; the database is sound
    but for the third commit. *)
Definition third_commit_fails : environment :=
  mk_environment true true (fun _ _ => daily series_two_days)
    (fun _ => no_clock) third_commit_refused.

End Samples.

Export Samples.

(** ** Failure kinds, as the specification names them *)

Inductive failure_kind : Type :=
  | RateLimited
  | UpstreamDataError
  | TransportError.

(** The specification's classification of a provider response: a transport
    failure, a rate-limit note, an error payload or an unrecognized shape.
    [None] is a recognized daily series. *)
Definition failure_kind_of (o : http_outcome) : option failure_kind :=
  match o with
  | ConnectionFailed | BadStatus => Some TransportError
  | BodyNotJson => Some UpstreamDataError
  | Body (JObj kv) =>
      match assoc "Error Message" kv, assoc "Note" kv, assoc "Time Series (Daily)" kv with
      | Some _, _, _ => Some UpstreamDataError
      | None, Some _, _ => Some RateLimited
      | None, None, Some (JObj _ | JArr _ | JStr _) => None
      | None, None, _ => Some UpstreamDataError
      end
  | Body _ => Some UpstreamDataError
  end.

(** ** Construction and entry point *)

Module Startup.

(** [not value] on what [os.getenv] gave: unset, or set to the empty text. *)
Definition unset (value : option string) : bool :=
  match value with
  | None => true
  | Some s => String.eqb s EmptyString
  end.

Record StockDataFetcher : Type := mk_StockDataFetcher {
  api_key : string;
  base_url : string
}.

(** [StockDataFetcher.__init__] *)
Definition fetcher_init (getenv : string -> option string)
    : result StockDataFetcher :=
  match getenv "ALPHA_VANTAGE_API_KEY" with
  | Some k =>
      if unset (Some k) then Raise ValueError
      else Return (mk_StockDataFetcher k "https://www.alphavantage.co/query")
  | None => Raise ValueError
  end.

Record DatabaseManager : Type := mk_DatabaseManager {
  db_url : string
}.

(** [DatabaseManager.__init__]; [create_engine url] is the exception that
    the engine constructor raises on [url], if any. *)
Definition manager_init (getenv : string -> option string)
    (create_engine : string -> option exn) : result DatabaseManager :=
  match getenv "DB_URL" with
  | Some url =>
      if unset (Some url) then Raise ValueError
      else
        match create_engine url with
        | Some e => Raise e
        | None => Return (mk_DatabaseManager url)
        end
  | None => Raise ValueError
  end.

Record FinancialAnalyticsPipeline : Type := mk_FinancialAnalyticsPipeline {
  db_manager : DatabaseManager;
  data_fetcher : StockDataFetcher;
  symbols : list string
}.

(** [FinancialAnalyticsPipeline.__init__]: the manager, then the fetcher. *)
Definition pipeline_init (getenv : string -> option string)
    (create_engine : string -> option exn) : result FinancialAnalyticsPipeline :=
  m <- manager_init getenv create_engine ;;
  f <- fetcher_init getenv ;;
  Return (mk_FinancialAnalyticsPipeline m f self_symbols).

(** The [__main__] block of [main.py]: the exit status of the process, and
    the run, if it was started. An exception that nobody catches ends the
    process with status 1, as [exit(1)] does. *)
Definition main `{Builtins} (getenv : string -> option string)
    (create_engine : string -> option exn) (env : environment) (db : table)
    : Z * option run_result :=
  match pipeline_init getenv create_engine with
  | Raise _ => (1%Z, None)
  | Return pipeline =>
      let r := run env (symbols pipeline) db in
      (match run_returned r with
       | Return true => 0%Z
       | Return false => 1%Z
       | Raise _ => 1%Z
       end, Some r)
  end.

End Startup.

(** ** Table statistics *)

Module TableStats.

(** The dict returned by [get_table_stats]. *)
Record table_stats : Type := mk_table_stats {
  total_records : nat;
  unique_symbols : nat;
  earliest_date : option datetime;
  latest_date : option datetime
}.

(** [func.min(StockPrice.date)]: no value on an empty table. *)
Fixpoint min_date (rows : table) : option datetime :=
  match rows with
  | [] => None
  | r :: rest =>
      match min_date rest with
      | None => Some (date r)
      | Some m => Some (if datetime_ltb (date r) m then date r else m)
      end
  end.

(** [func.max(StockPrice.date)] *)
Fixpoint max_date (rows : table) : option datetime :=
  match rows with
  | [] => None
  | r :: rest =>
      match max_date rest with
      | None => Some (date r)
      | Some m => Some (if datetime_ltb m (date r) then date r else m)
      end
  end.

(** [session.query(StockPrice.symbol).distinct().count()] *)
Definition count_distinct_symbols (rows : table) : nat :=
  List.length (nodup string_dec (map symbol rows)).

(** [get_table_stats]; [db_ok] tells whether the queries go through:
    any exception of the [try] becomes [None]. *)
Definition get_table_stats (db_ok : bool) (db : table) : option table_stats :=
  if db_ok then
    Some (mk_table_stats (List.length db) (count_distinct_symbols db)
            (min_date db) (max_date db))
  else None.

End TableStats.

(** ** Vocabulary of the further properties *)

(** The records of the entries that parse, in the order of the series;
    entry [k] is stamped with [clock k]. *)
Fixpoint kept_records `{Builtins} (sym : string) (clock : nat -> Z) (k : nat)
    (items : list (string * json)) : list StockPrice :=
  match items with
  | [] => []
  | (date_str, values) :: rest =>
      match parse_record sym date_str values (clock k) with
      | Return r => r :: kept_records sym clock (S k) rest
      | Raise _ => kept_records sym clock (S k) rest
      end
  end.

(** The symbols of a list, each once, in the order of their first
    occurrence: the keys of the dict that the batch fetch fills. *)
Definition add_symbol (seen : list string) (s : string) : list string :=
  if in_dec string_dec s seen then seen else seen ++ [s].

Definition distinct_symbols (symbols : list string) : list string :=
  fold_left add_symbol symbols [].

(** The records that an upsert adds to the rows [seen]: those whose key is
    neither among [seen] nor carried by an earlier record. *)
Fixpoint fresh_rows (seen : table) (records : list StockPrice) : table :=
  match records with
  | [] => []
  | r :: rest =>
      if existsb (has_key (symbol r) (date r)) seen
      then fresh_rows seen rest
      else r :: fresh_rows (seen ++ [r]) rest
  end.

(** All the records of a mapping, symbol after symbol. *)
Definition all_records (all_data : dict (list StockPrice)) : list StockPrice :=
  List.concat (map snd all_data).


(** Two mappings with the same symbols and, symbol by symbol, records of
    the same keys. *)
Definition same_keys (a b : dict (list StockPrice)) : Prop :=
  Forall2 (fun x y => fst x = fst y /\ map key (snd x) = map key (snd y)) a b.

(** A payload whose series is a list: it passes the shape check of the
    fetch. *)
Definition daily_list : http_outcome := daily (JArr [JStr "2024-01-02"]).

Definition settings_complete : string -> option string :=
  fun name =>
    if String.eqb name "DB_URL" then Some "sqlite:///prices.db"
    else if String.eqb name "ALPHA_VANTAGE_API_KEY" then Some "demo"
    else None.

Definition engine_accepts : string -> option exn := fun _ => None.

(** A sound environment: every request answered with two days of data. *)
Definition sound_environment : environment :=
  mk_environment true true (fun _ _ => daily series_two_days)
    (fun _ => no_clock) all_commits.

(** The second request is answered with a series that is a list. *)
Definition list_series_environment : environment :=
  mk_environment true true
    (fun i _ => if Nat.eqb i 1 then daily_list else daily series_two_days)
    (fun _ => no_clock) all_commits.


(** As [sound_environment], read at a later time. *)
Definition later_environment : environment :=
  mk_environment true true (fun _ _ => daily series_two_days)
    (fun _ _ => 86400%Z) all_commits.

(** The first request meets a rate-limit note, the second a series with a
    JSON [null] as one close, the later ones two days of data. *)
Definition note_then_null_close : nat -> string -> http_outcome :=
  fun i _ =>
    match i with
    | 0 => rate_limit_note
    | 1 => daily series_null_close
    | _ => daily series_two_days
    end.

(** * Properties *)

(** ** Single-symbol fetch *)

Lemma fetch_daily_data_total (o : http_outcome) :
  exists v, fetch_daily_data o = Return v.
Proof.
  unfold fetch_daily_data, try_except.
  destruct (fetch_daily_data_body o); eauto.
Qed.

Lemma fetch_daily_data_failure (o : http_outcome) (k : failure_kind) :
  failure_kind_of o = Some k -> fetch_daily_data o = Return None.
Proof.
  destruct o as [ | | | data]; try reflexivity.
  destruct data as [ | b | z | f | s | l | kv]; try reflexivity.
  - intros _. unfold fetch_daily_data, fetch_daily_data_body; cbn.
    repeat (match goal with
            | |- context [if ?b then _ else _] => destruct b; cbn
            end); reflexivity.
  - intros _. unfold fetch_daily_data, fetch_daily_data_body; cbn.
    repeat (match goal with
            | |- context [if ?b then _ else _] => destruct b; cbn
            end); reflexivity.
  - unfold fetch_daily_data, fetch_daily_data_body; cbn.
    destruct (assoc "Error Message" kv); cbn; [reflexivity | ].
    destruct (assoc "Note" kv); cbn; [reflexivity | ].
    destruct (assoc "Time Series (Daily)" kv) as [ts | ]; cbn; [ | reflexivity].
    destruct ts; cbn; congruence.
Qed.

Lemma fetch_daily_data_success (o : http_outcome) :
  failure_kind_of o = None -> exists ts, fetch_daily_data o = Return (Some ts).
Proof.
  destruct o as [ | | | data]; try discriminate.
  destruct data as [ | b | z | f | s | l | kv]; try discriminate.
  unfold fetch_daily_data, fetch_daily_data_body; cbn.
  destruct (assoc "Error Message" kv); cbn; [discriminate | ].
  destruct (assoc "Note" kv); cbn; [discriminate | ].
  destruct (assoc "Time Series (Daily)" kv) as [ts | ]; cbn; [ | discriminate].
  destruct ts; cbn; try discriminate; eauto.
Qed.

(** C5, as amended: the single-symbol fetch never raises; every failure
    kind comes back as the one sentinel [None], and a recognized series
    comes back as itself. *)
Theorem fetch_daily_data_sentinel (o : http_outcome) :
  (exists v, fetch_daily_data o = Return v) /\
  (forall k, failure_kind_of o = Some k -> fetch_daily_data o = Return None) /\
  (failure_kind_of o = None -> exists ts, fetch_daily_data o = Return (Some ts)).
Proof.
  split; [apply fetch_daily_data_total | split].
  - intros k. apply fetch_daily_data_failure.
  - apply fetch_daily_data_success.
Qed.

Lemma fetch_daily_data_sentinel_witness :
  failure_kind_of rate_limit_note = Some RateLimited /\
  fetch_daily_data rate_limit_note = Return None.
Proof.
  split; [reflexivity | ].
  exact (proj1 (proj2 (fetch_daily_data_sentinel rate_limit_note))
           RateLimited eq_refl).
Defined.

(** C5, as stated, fails: no function of the returned value tells the
    failure kinds apart, since a rate-limit note, an error payload and a
    transport failure return the same value. *)
Lemma fetch_daily_data_kinds_indistinguishable :
  fetch_daily_data rate_limit_note = fetch_daily_data error_message /\
  fetch_daily_data rate_limit_note = fetch_daily_data ConnectionFailed /\
  ~ exists classify : result (option json) -> failure_kind,
      forall o k, failure_kind_of o = Some k -> classify (fetch_daily_data o) = k.
Proof.
  split; [reflexivity | split; [reflexivity | ]].
  intros [classify Hc].
  pose proof (Hc rate_limit_note RateLimited eq_refl) as H1.
  pose proof (Hc ConnectionFailed TransportError eq_refl) as H2.
  cbn in H1, H2. congruence.
Qed.

(** ** Parser *)

Ltac step_bind H :=
  match type of H with
  | context [bind ?c _] =>
      let E := fresh "E" in
      destruct c eqn:E; cbn [bind] in H; [ | try discriminate H]
  end.

Lemma parse_record_symbol `{Builtins} (sym date_str : string) (values : json)
    (now : Z) (r : StockPrice) :
  parse_record sym date_str values now = Return r -> symbol r = sym.
Proof.
  unfold parse_record. intros Hr.
  repeat step_bind Hr.
  injection Hr as <-. reflexivity.
Qed.

Lemma parse_loop_symbol `{Builtins} (sym : string) (clock : nat -> Z)
    (items : list (string * json)) :
  forall k acc recs,
    Forall (fun r => symbol r = sym) acc ->
    parse_loop sym clock k items acc = Return recs ->
    Forall (fun r => symbol r = sym) recs.
Proof.
  induction items as [ | [date_str values] rest IH]; intros k acc recs Hacc Hrun.
  - cbn in Hrun. injection Hrun as <-. exact Hacc.
  - cbn [parse_loop] in Hrun.
    destruct (parse_record sym date_str values (clock k)) as [r | e] eqn:Hrec;
      cbn [bind try_except_in] in Hrun.
    + apply (IH _ _ _ (proj2 (Forall_app _ _ _)
                         (conj Hacc (Forall_cons _ (parse_record_symbol _ _ _ _ _ Hrec)
                                       (Forall_nil _)))) Hrun).
    + destruct (existsb (exn_eqb e) [KeyError; ValueError]); cbn [bind] in Hrun.
      * apply (IH _ _ _ Hacc Hrun).
      * discriminate Hrun.
Qed.

(** C9: every record that the parser returns carries the symbol the parser
    was called with. *)
Theorem parse_stock_data_symbol `{Builtins} (sym : string) (clock : nat -> Z)
    (time_series_data : json) (recs : list StockPrice) :
  parse_stock_data sym clock time_series_data = Return recs ->
  Forall (fun r => symbol r = sym) recs.
Proof.
  unfold parse_stock_data. intros Hrun.
  step_bind Hrun.
  apply (parse_loop_symbol sym clock a 0 [] recs (Forall_nil _) Hrun).
Qed.

Lemma parse_stock_data_symbol_witness :
  parse_stock_data "JPM" no_clock series_text_close =
    Return [mk_StockPrice "JPM" (mk_datetime 2024 1 2) 151 154 150.5 153 1200 0] /\
  Forall (fun r => symbol r = "JPM")
    [mk_StockPrice "JPM" (mk_datetime 2024 1 2) 151 154 150.5 153 1200 0].
Proof.
  split; [vm_compute; reflexivity | ].
  apply (parse_stock_data_symbol "JPM" no_clock series_text_close).
  vm_compute. reflexivity.
Defined.

Lemma parse_loop_app `{Builtins} (sym : string) (clock : nat -> Z)
    (front back : list (string * json)) :
  forall k acc,
    parse_loop sym clock k (front ++ back) acc =
    bind (parse_loop sym clock k front acc)
         (parse_loop sym clock (k + List.length front) back).
Proof.
  induction front as [ | [date_str values] rest IH]; intros k acc.
  - cbn. rewrite Nat.add_0_r. reflexivity.
  - cbn [parse_loop app List.length].
    destruct (try_except_in _ _ _) as [acc' | e]; cbn [bind].
    + rewrite IH. rewrite <- Nat.add_succ_comm. reflexivity.
    + reflexivity.
Qed.

Lemma parse_loop_all_parse `{Builtins} (sym : string) (clock : nat -> Z)
    (items : list (string * json)) :
  Forall entry_parses items ->
  forall k acc, exists recs,
    parse_loop sym clock k items acc = Return (acc ++ recs) /\
    List.length recs = List.length items.
Proof.
  induction 1 as [ | [date_str values] rest Hhead _ IH]; intros k acc.
  - exists []. cbn. rewrite app_nil_r. auto.
  - destruct (Hhead sym (clock k)) as [r Hr]. cbn [fst snd] in Hr.
    destruct (IH (S k) (acc ++ [r])) as [recs [Hrun Hlen]].
    exists (r :: recs). cbn [parse_loop]. rewrite Hr. cbn [bind try_except_in].
    rewrite Hrun, <- app_assoc. cbn. auto.
Qed.

(** X5: an entry with a missing field or with a field whose text is not a
    number (its coercion raises [KeyError] or [ValueError]) is dropped
    alone, and the other [N - 1] entries of the series are returned. *)
Lemma parse_stock_data_drops_one `{Builtins} (sym : string) (clock : nat -> Z)
    (front back : list (string * json)) (bad : string * json) :
  Forall entry_parses front -> entry_dropped bad -> Forall entry_parses back ->
  exists recs,
    parse_stock_data sym clock (JObj (front ++ bad :: back)) = Return recs /\
    List.length recs = List.length (front ++ bad :: back) - 1.
Proof.
  intros Hfront Hbad Hback.
  destruct (parse_loop_all_parse sym clock front Hfront 0 []) as [recs1 [Hrun1 Hlen1]].
  destruct (parse_loop_all_parse sym clock back Hback (S (List.length front)) recs1)
    as [recs2 [Hrun2 Hlen2]].
  exists (recs1 ++ recs2). split.
  - unfold parse_stock_data. cbn [py_items bind].
    rewrite parse_loop_app, Hrun1. cbn [bind app Nat.add].
    destruct bad as [date_str values]. cbn [parse_loop].
    destruct (Hbad sym (clock (List.length front))) as [Hr | Hr];
      cbn [fst snd] in Hr; rewrite Hr; cbn [bind try_except_in existsb exn_eqb orb];
      exact Hrun2.
  - rewrite !length_app. cbn [List.length]. lia.
Qed.

(** X15: an exception of the coercion that is neither [KeyError] nor
    [ValueError] leaves the parser, and the entries parsed before it are
    lost with it. *)
Lemma parse_stock_data_propagates `{Builtins} (sym : string) (clock : nat -> Z)
    (front back : list (string * json)) (bad : string * json) (e : exn) :
  Forall entry_parses front ->
  (forall now, parse_record sym (fst bad) (snd bad) now = Raise e) ->
  existsb (exn_eqb e) [KeyError; ValueError] = false ->
  parse_stock_data sym clock (JObj (front ++ bad :: back)) = Raise e.
Proof.
  intros Hfront Hbad Hescapes.
  destruct (parse_loop_all_parse sym clock front Hfront 0 []) as [recs1 [Hrun1 _]].
  unfold parse_stock_data. cbn [py_items bind].
  rewrite parse_loop_app, Hrun1. cbn [bind app Nat.add].
  destruct bad as [date_str values]. cbn [parse_loop fst snd] in *.
  rewrite Hbad. cbn [bind try_except_in]. rewrite Hescapes. reflexivity.
Qed.

(** C6 at a day-entry whose close is a JSON [null]: [float(None)] raises
    [TypeError], which the [except (KeyError, ValueError)] of the parser
    does not catch. The whole series is lost, not one entry. *)
Theorem parse_stock_data_null_field :
  parse_stock_data "JPM" no_clock series_null_close = Raise TypeError /\
  parse_stock_data "JPM" no_clock series_text_close =
    Return [mk_StockPrice "JPM" (mk_datetime 2024 1 2) 151 154 150.5 153 1200 0].
Proof.
  split; vm_compute; reflexivity.
Qed.

(** ** Batch fetch *)

Lemma dict_get_set_eq {V : Type} (d : dict V) (k : string) (v : V) :
  dict_get (dict_set d k v) k = Some v.
Proof.
  unfold dict_get.
  induction d as [ | [k' v'] rest IH]; cbn.
  - rewrite String.eqb_refl. reflexivity.
  - destruct (String.eqb k' k) eqn:E; cbn; rewrite E; auto.
Qed.

Lemma dict_get_set_neq {V : Type} (d : dict V) (k k' : string) (v : V) :
  k <> k' -> dict_get (dict_set d k v) k' = dict_get d k'.
Proof.
  unfold dict_get. intros Hne.
  induction d as [ | [k0 v0] rest IH]; cbn.
  - destruct (String.eqb_spec k k'); [contradiction | reflexivity].
  - destruct (String.eqb_spec k0 k) as [-> | Hk]; cbn.
    + destruct (String.eqb_spec k k'); [contradiction | reflexivity].
    + rewrite IH. reflexivity.
Qed.

Lemma parser_returns_tail `{Builtins} provider clock i s rest :
  parser_returns provider clock i (s :: rest) ->
  parser_returns provider clock (S i) rest.
Proof.
  intros Hsafe j s' ts Hnth Hf.
  replace (S i + j) with (i + S j) in * by lia.
  apply (Hsafe (S j) s' ts Hnth Hf).
Qed.

(** One turn of the batch loop on a symbol whose series, if any, the parser
    accepts. *)
Lemma fetch_loop_step `{Builtins} provider clock delay len i s rest all_data tr :
  (forall ts, fetched provider i s = Some ts ->
              exists recs, parse_stock_data s (clock i) ts = Return recs) ->
  fetch_loop provider clock delay len i (s :: rest) all_data tr =
  fetch_loop provider clock delay len (S i) rest
    (dict_set all_data s (stored_for provider clock i s))
    (tr ++ Request s ::
       (if is_some (fetched provider i s) && Nat.ltb i (len - 1)
        then [Sleep delay] else [])).
Proof.
  intros Hhead. cbn [fetch_loop]. unfold stored_for.
  unfold fetched in Hhead |- *.
  destruct (fetch_daily_data_total (provider i s)) as [v Hv]. rewrite Hv in *.
  destruct (if truthy v then v else None) as [ts | ].
  - destruct (Hhead ts eq_refl) as [recs Hrecs]. rewrite Hrecs.
    cbn [is_some andb].
    destruct (Nat.ltb i (len - 1)); rewrite <- ?app_assoc; reflexivity.
  - reflexivity.
Qed.

(** The loop of the batch fetch, when no parser exception leaves it: the
    events, the keys it leaves alone and the value of the keys it sets. *)
Lemma fetch_loop_spec `{Builtins} provider clock delay len symbols :
  forall i all_data tr,
    parser_returns provider clock i symbols ->
    exists d,
      fetch_loop provider clock delay len i symbols all_data tr =
        (tr ++ expected_events provider delay len i symbols, Return d) /\
      (forall s, ~ In s symbols -> dict_get d s = dict_get all_data s) /\
      (forall j s, last_request symbols j s ->
                   dict_get d s = Some (stored_for provider clock (i + j) s)).
Proof.
  induction symbols as [ | s rest IH]; intros i all_data tr Hsafe.
  - exists all_data. cbn. rewrite app_nil_r.
    split; [reflexivity | split; [reflexivity | ]].
    intros j s [Hnth _]. destruct j; discriminate Hnth.
  - rewrite fetch_loop_step.
    2:{ intros ts Hts. pose proof (Hsafe 0 s ts eq_refl) as Hhead.
        rewrite Nat.add_0_r in Hhead. exact (Hhead Hts). }
    destruct (IH (S i) (dict_set all_data s (stored_for provider clock i s))
                (tr ++ Request s ::
                   (if is_some (fetched provider i s) && Nat.ltb i (len - 1)
                    then [Sleep delay] else []))
                (parser_returns_tail _ _ _ _ _ Hsafe)) as [d [Hrun [Hout Hin]]].
    exists d. split; [ | split].
    + rewrite Hrun. cbn [expected_events]. f_equal.
      rewrite <- app_assoc. reflexivity.
    + intros s' Hs'. rewrite (Hout s').
      * apply dict_get_set_neq. intros ->. apply Hs'. left. reflexivity.
      * intros Hrest. apply Hs'. right. exact Hrest.
    + intros j s' [Hnth Hlast]. destruct j as [ | j].
      * injection Hnth as <-. rewrite Nat.add_0_r. rewrite (Hout s).
        -- apply dict_get_set_eq.
        -- intros Hrest. apply In_nth_error in Hrest. destruct Hrest as [j' Hj'].
           apply (Hlast (S j')); [lia | exact Hj'].
      * replace (i + S j) with (S i + j) by lia. apply Hin. split.
        -- exact Hnth.
        -- intros j' Hlt. apply (Hlast (S j')). lia.
Qed.

Lemma last_request_exists (symbols : list string) (s : string) :
  In s symbols -> exists j, last_request symbols j s.
Proof.
  induction symbols as [ | a rest IH]; intros Hin; [destruct Hin | ].
  destruct (in_dec string_dec s rest) as [Hrest | Hnot].
  - destruct (IH Hrest) as [j [Hnth Hlast]].
    exists (S j). split; [exact Hnth | ].
    intros [ | j'] Hlt; [lia | ]. apply Hlast. lia.
  - destruct Hin as [-> | Hrest]; [ | contradiction].
    exists 0. split; [reflexivity | ].
    intros [ | j'] Hlt Hnth; [lia | ].
    cbn in Hnth. apply Hnot. apply (nth_error_In _ _ Hnth).
Qed.

Lemma requests_expected_events provider delay len symbols :
  forall i, requests (expected_events provider delay len i symbols) = symbols.
Proof.
  induction symbols as [ | s rest IH]; intros i; [reflexivity | ].
  cbn [expected_events]. unfold requests in *. cbn [flat_map app].
  rewrite flat_map_app, IH.
  destruct (is_some _ && _); reflexivity.
Qed.






Lemma fetch_multiple_symbols_spec `{Builtins} provider clock symbols delay :
  parser_returns provider clock 0 symbols ->
  exists all_data,
    fetch_multiple_symbols provider clock symbols delay =
      (expected_events provider delay (List.length symbols) 0 symbols,
       Return all_data) /\
    (forall j s, last_request symbols j s ->
                 dict_get all_data s = Some (stored_for provider clock j s)).
Proof.
  intros Hsafe. unfold fetch_multiple_symbols.
  destruct (fetch_loop_spec provider clock delay (List.length symbols) symbols
              0 [] [] Hsafe) as [d [Hrun [_ Hin]]].
  exists d. split; [exact Hrun | exact Hin].
Qed.

(** X18: when every fetch of a symbol [x] fails, in a batch that no parser
    exception leaves, the batch requests every symbol in order and returns
    a mapping in which every requested symbol has what its last request
    gave, the records that the parser returned or the empty list after a
    failed fetch, and [x] has the empty list. *)
Theorem fetch_isolation `{Builtins} provider clock symbols delay x :
  In x symbols ->
  (forall j, nth_error symbols j = Some x -> fetched provider j x = None) ->
  parser_returns provider clock 0 symbols ->
  exists tr all_data,
    fetch_multiple_symbols provider clock symbols delay = (tr, Return all_data) /\
    requests tr = symbols /\
    (forall s, In s symbols ->
       exists j, last_request symbols j s /\
         match fetched provider j s with
         | Some ts =>
             exists recs, parse_stock_data s (clock j) ts = Return recs /\
                          dict_get all_data s = Some recs
         | None => dict_get all_data s = Some []
         end) /\
    dict_get all_data x = Some [].
Proof.
  intros Hx Hfail Hsafe.
  destruct (fetch_multiple_symbols_spec provider clock symbols delay Hsafe)
    as [all_data [Hrun Hin]].
  exists (expected_events provider delay (List.length symbols) 0 symbols), all_data.
  split; [exact Hrun | split; [apply requests_expected_events | split]].
  - intros s Hs. destruct (last_request_exists symbols s Hs) as [j Hj].
    exists j. split; [exact Hj | ].
    pose proof (Hin j s Hj) as Hget. unfold stored_for in Hget.
    pose proof (Hsafe j s) as Hparse. cbn [Nat.add] in Hparse.
    destruct (fetched provider j s) as [ts | ]; [ | exact Hget].
    destruct (Hparse ts (proj1 Hj) eq_refl) as [recs Hrecs].
    rewrite Hrecs in Hget. exists recs. split; [exact Hrecs | exact Hget].
  - destruct (last_request_exists symbols x Hx) as [j Hj].
    rewrite (Hin j x Hj). unfold stored_for.
    rewrite (Hfail j (proj1 Hj)). reflexivity.
Qed.

Lemma note_then_data_fails_first :
  forall j, nth_error ["JPM"; "BAC"] j = Some "JPM" ->
            fetched note_then_data j "JPM" = None.
Proof.
  intros [ | [ | j]] Hj; [reflexivity | discriminate Hj | destruct j; discriminate Hj].
Qed.

Lemma note_then_data_parser_returns :
  parser_returns note_then_data (fun _ => no_clock) 0 ["JPM"; "BAC"].
Proof.
  intros [ | [ | j]] s ts Hj Hts.
  - injection Hj as <-. discriminate Hts.
  - injection Hj as <-. injection Hts as <-. eexists. vm_compute. reflexivity.
  - destruct j; discriminate Hj.
Qed.

Lemma fetch_isolation_witness :
  In "JPM" ["JPM"; "BAC"] /\
  fetch_multiple_symbols note_then_data (fun _ => no_clock) ["JPM"; "BAC"] 12 =
    ([Request "JPM"; Request "BAC"],
     Return [("JPM", []);
             ("BAC", [mk_StockPrice "BAC" (mk_datetime 2024 1 2) 151 154 150.5 153
                        1200 0;
                      mk_StockPrice "BAC" (mk_datetime 2024 1 1) 149 151 148 150
                        1000 0])]) /\
  exists tr all_data,
    fetch_multiple_symbols note_then_data (fun _ => no_clock) ["JPM"; "BAC"] 12 =
      (tr, Return all_data) /\
    requests tr = ["JPM"; "BAC"] /\
    (forall s, In s ["JPM"; "BAC"] ->
       exists j, last_request ["JPM"; "BAC"] j s /\
         match fetched note_then_data j s with
         | Some ts =>
             exists recs, parse_stock_data s no_clock ts = Return recs /\
                          dict_get all_data s = Some recs
         | None => dict_get all_data s = Some []
         end) /\
    dict_get all_data "JPM" = Some [].
Proof.
  split; [left; reflexivity | split; [vm_compute; reflexivity | ]].
  apply (fetch_isolation note_then_data (fun _ => no_clock) ["JPM"; "BAC"] 12 "JPM").
  - left; reflexivity.
  - exact note_then_data_fails_first.
  - exact note_then_data_parser_returns.
Defined.

(** C7 at a batch of three symbols: the fetch of the first one fails with a
    rate-limit note, and the series of the second one has a JSON [null]
    as one close. The [TypeError] of the parser leaves the batch: no
    mapping is returned, also not for the first symbol, and the third
    symbol is never requested. *)
Theorem fetch_isolation_lost_to_parser_exception :
  fetch_daily_data (note_then_null_close 0 "JPM") = Return None /\
  fetch_multiple_symbols note_then_null_close (fun _ => no_clock)
    ["JPM"; "BAC"; "WFC"] 12 =
    ([Request "JPM"; Request "BAC"], Raise TypeError).
Proof.
  split; vm_compute; reflexivity.
Qed.




(** ** Store *)

Lemma datetime_eqb_eq (a b : datetime) : datetime_eqb a b = true <-> a = b.
Proof.
  destruct a as [y1 m1 d1], b as [y2 m2 d2]. unfold datetime_eqb. cbn.
  rewrite !andb_true_iff, !Z.eqb_eq. split.
  - intros [[-> ->] ->]. reflexivity.
  - intros E. injection E as -> -> ->. auto.
Qed.

Lemma has_key_key (s : string) (d : datetime) (row : StockPrice) :
  has_key s d row = true <-> key row = (s, d).
Proof.
  unfold has_key, key. rewrite andb_true_iff, String.eqb_eq, datetime_eqb_eq.
  split.
  - intros [-> ->]. reflexivity.
  - intros E. injection E as -> ->. auto.
Qed.

Lemma existsb_has_key (t : table) (r : StockPrice) :
  existsb (has_key (symbol r) (date r)) t = true <-> In (key r) (map key t).
Proof.
  rewrite existsb_exists, in_map_iff. split.
  - intros [row [Hin Hk]]. exists row. split; [ | exact Hin].
    apply has_key_key in Hk. exact Hk.
  - intros [row [Hk Hin]]. exists row. split; [exact Hin | ].
    apply has_key_key. exact Hk.
Qed.

Lemma query_first_found (s : session) (r : StockPrice) :
  (exists row, query_first s (symbol r) (date r) = Some row) <->
  In (key r) (map key (visible s)).
Proof.
  rewrite <- existsb_has_key. unfold query_first. split.
  - intros [row Hrow]. apply find_some in Hrow.
    apply existsb_exists. exists row. exact Hrow.
  - intros Hex. destruct (find _ _) as [row | ] eqn:Hfind; [eauto | ].
    apply existsb_exists in Hex. destruct Hex as [row [Hin Hk]].
    rewrite (find_none _ _ Hfind row Hin) in Hk. discriminate Hk.
Qed.

Lemma unique_keys_snoc (t : table) (r : StockPrice) :
  unique_keys t -> ~ In (key r) (map key t) -> unique_keys (t ++ [r]).
Proof.
  unfold unique_keys. intros Hu Hnew. rewrite map_app. cbn [map].
  apply NoDup_app.
  - exact Hu.
  - constructor; [intros [] | constructor].
  - intros k Hk [<- | []]. exact (Hnew Hk).
Qed.

Lemma query_first_none (s : session) (r : StockPrice) :
  query_first s (symbol r) (date r) = None <->
  ~ In (key r) (map key (visible s)).
Proof.
  rewrite <- query_first_found. split.
  - intros Hq [row Hrow]. congruence.
  - intros Hno. destruct (query_first _ _ _) as [row | ]; [ | reflexivity].
    exfalso. apply Hno. eauto.
Qed.

Lemma session_add_fresh (s : session) (r : StockPrice) :
  ~ In (key r) (map key (visible s)) ->
  session_add s r = Return (mk_session (committed s) (pending s ++ [r])).
Proof.
  intros Hnew. unfold session_add.
  destruct (existsb _ _) eqn:Hex; [ | reflexivity].
  apply existsb_has_key in Hex. contradiction.
Qed.

(** The loop over the records of one symbol: it never raises, it leaves
    the committed rows alone, and it adds to the transaction exactly the
    records whose key was not visible yet. *)
Lemma store_records_spec (records : list StockPrice) :
  forall st, exists added,
    store_records records st =
      (mk_ingest (mk_session (committed (sess st)) (pending (sess st) ++ added))
         (total_stored st + List.length added)
         (total_skipped st + (List.length records - List.length added)),
       Return tt) /\
    List.length added <= List.length records /\
    incl added records /\
    (forall r, In r added -> ~ In (key r) (map key (visible (sess st)))) /\
    (unique_keys (visible (sess st)) -> unique_keys (visible (sess st) ++ added)) /\
    (forall r, In r records -> In (key r) (map key (visible (sess st) ++ added))).
Proof.
  induction records as [ | r rest IH]; intros st.
  - exists []. destruct st as [[c p] a b]. cbn.
    rewrite !app_nil_r, !Nat.add_0_r.
    repeat split; auto using incl_nil_l; intros r [].
  - cbn [store_records].
    destruct (query_first (sess st) (symbol r) (date r)) as [row | ] eqn:Hq.
    + assert (Hin : In (key r) (map key (visible (sess st))))
        by (apply query_first_found; eauto).
      destruct (IH (mk_ingest (sess st) (total_stored st) (total_skipped st + 1)))
        as [added [Hrun [Hlen [Hincl [Hfresh [Huniq Hall]]]]]].
      cbn [sess total_stored total_skipped] in *.
      exists added. rewrite Hrun. cbn [List.length].
      split; [do 2 f_equal; lia | ].
      split; [lia | ].
      split; [apply incl_tl, Hincl | ].
      split; [exact Hfresh | ].
      split; [exact Huniq | ].
      intros r' [<- | Hr'].
      * rewrite map_app. apply in_or_app. left. exact Hin.
      * apply Hall, Hr'.
    + apply query_first_none in Hq.
      rewrite (session_add_fresh _ _ Hq).
      destruct (IH (mk_ingest (mk_session (committed (sess st))
                                 (pending (sess st) ++ [r]))
                      (total_stored st + 1) (total_skipped st)))
        as [added [Hrun [Hlen [Hincl [Hfresh [Huniq Hall]]]]]].
      cbn [sess total_stored total_skipped committed pending] in *.
      assert (Hvis : visible (mk_session (committed (sess st))
                                (pending (sess st) ++ [r])) =
                     visible (sess st) ++ [r])
        by (unfold visible; cbn; apply app_assoc).
      rewrite Hvis in *.
      exists (r :: added). rewrite Hrun. cbn [List.length].
      split; [rewrite <- app_assoc; cbn; do 2 f_equal; lia | ].
      split; [lia | ].
      split; [apply incl_cons; [left; reflexivity | apply incl_tl, Hincl] | ].
      split.
      * intros r' [<- | Hr']; [exact Hq | ].
        intros Hk. apply (Hfresh r' Hr'). rewrite map_app.
        apply in_or_app. left. exact Hk.
      * split.
        -- intros Hu. change (r :: added) with ([r] ++ added).
           rewrite app_assoc. apply Huniq, unique_keys_snoc; assumption.
        -- intros r' Hr'. change (r :: added) with ([r] ++ added).
           rewrite app_assoc. destruct Hr' as [<- | Hr'].
           ++ rewrite map_app. apply in_or_app. left.
              rewrite map_app. apply in_or_app. right. left. reflexivity.
           ++ apply Hall, Hr'.
Qed.

(** The loop over the symbols, started with an empty transaction: rows are
    only appended to the committed table; it ends normally exactly when
    every commit is accepted, and otherwise by the refused commit. *)
Lemma store_symbols_spec (items : dict (list StockPrice)) :
  forall ok k st,
    pending (sess st) = [] ->
    exists st' res added,
      store_symbols ok k items st = (st', res) /\
      committed (sess st') = committed (sess st) ++ added /\
      (unique_keys (committed (sess st)) -> unique_keys (committed (sess st'))) /\
      match res with
      | Return _ =>
          pending (sess st') = [] /\
          total_stored st' = total_stored st + List.length added /\
          total_stored st' + total_skipped st' =
            total_stored st + total_skipped st + total_records items /\
          (forall s recs r, In (s, recs) items -> In r recs ->
                            In (key r) (map key (committed (sess st')))) /\
          (forall j, j < List.length items -> ok (k + j) = true)
      | Raise e =>
          e = OperationalError /\
          exists j, j < List.length items /\ ok (k + j) = false
      end.
Proof.
  induction items as [ | [s recs] rest IH]; intros ok k st Hpending.
  - exists st, (Return tt), []. cbn. rewrite app_nil_r.
    repeat split; auto; try lia.
  - cbn [store_symbols].
    destruct (store_records_spec recs st)
      as [added1 [Hrun [Hlen [_ [_ [Huniq Hall]]]]]].
    rewrite Hrun. cbn [sess committed pending].
    assert (Hvis : visible (sess st) = committed (sess st))
      by (unfold visible; rewrite Hpending; apply app_nil_r).
    rewrite Hvis in Huniq, Hall. rewrite Hpending. cbn [app].
    destruct (ok k) eqn:Hok; cbn [session_commit committed pending].
    + destruct (IH ok (S k)
                  (mk_ingest (mk_session (committed (sess st) ++ added1) [])
                     (total_stored st + List.length added1)
                     (total_skipped st + (List.length recs - List.length added1)))
                  eq_refl) as [st' [res [added2 [Hrest [Hcomm [Hu Hres]]]]]].
      cbn [sess committed pending total_stored total_skipped] in *.
      exists st', res, (added1 ++ added2).
      split; [exact Hrest | ].
      split; [rewrite Hcomm; symmetry; apply app_assoc | ].
      split; [intros H0; apply Hu, Huniq, H0 | ].
      destruct res as [[] | e].
      * destruct Hres as [Hp [Hst [Hsum [Hkeys Hoks]]]].
        split; [exact Hp | ].
        split; [rewrite Hst, length_app; lia | ].
        split; [rewrite Hsum; cbn [total_records fold_right snd];
                fold (total_records rest); lia | ].
        split.
        -- intros s0 recs0 r [E | Hin] Hr.
           ++ injection E as <- <-. rewrite Hcomm, map_app.
              apply in_or_app. left. apply Hall, Hr.
           ++ apply (Hkeys s0 recs0 r Hin Hr).
        -- intros [ | j] Hj.
           ++ rewrite Nat.add_0_r. exact Hok.
           ++ replace (k + S j) with (S k + j) by lia. apply Hoks.
              cbn [List.length] in Hj. lia.
      * destruct Hres as [He [j [Hj Hfalse]]].
        split; [exact He | ].
        exists (S j). split; [cbn [List.length]; lia | ].
        replace (k + S j) with (S k + j) by lia. exact Hfalse.
    + eexists _, (Raise OperationalError), [].
      split; [reflexivity | ]. cbn [sess committed].
      split; [symmetry; apply app_nil_r | ].
      split; [auto | ].
      split; [reflexivity | ].
      exists 0. split; [cbn [List.length]; lia | ].
      rewrite Nat.add_0_r. exact Hok.
Qed.

(** The store phase as a whole. *)
Lemma store_all_data_spec (ok : nat -> bool) (all_data : dict (list StockPrice))
    (db : table) :
  exists added,
    fst (store_all_data ok all_data db) = db ++ added /\
    (unique_keys db -> unique_keys (db ++ added)) /\
    match snd (store_all_data ok all_data db) with
    | Some (stored, skipped) =>
        stored = List.length added /\
        stored + skipped = total_records all_data /\
        (forall s recs r, In (s, recs) all_data -> In r recs ->
                          In (key r) (map key (db ++ added))) /\
        (forall j, j < List.length all_data -> ok j = true)
    | None => exists j, j < List.length all_data /\ ok j = false
    end.
Proof.
  unfold store_all_data.
  destruct (store_symbols_spec all_data ok 0 (mk_ingest (get_session db) 0 0) eq_refl)
    as [st' [res [added [Hrun [Hcomm [Hu Hres]]]]]].
  rewrite Hrun. cbn [sess committed get_session total_stored total_skipped] in *.
  exists added. destruct res as [[] | e]; cbn [fst snd session_close session_rollback committed].
  - destruct Hres as [_ [Hst [Hsum [Hkeys Hoks]]]].
    rewrite <- Hcomm. repeat split; auto.
  - destruct Hres as [_ Hj]. rewrite <- Hcomm. repeat split; auto.
Qed.

Lemma store_all_data_completes (ok : nat -> bool)
    (all_data : dict (list StockPrice)) (db : table) :
  (forall j, j < List.length all_data -> ok j = true) ->
  exists summary, snd (store_all_data ok all_data db) = Some summary.
Proof.
  intros Hok.
  destruct (store_all_data_spec ok all_data db) as [added [_ [_ Hres]]].
  destruct (snd (store_all_data ok all_data db)) as [summary | ]; [eauto | ].
  destruct Hres as [j [Hj Hfalse]]. rewrite (Hok j Hj) in Hfalse. discriminate.
Qed.

(** C10: when the store phase ends without a persistence error, the
    stored and the skipped counts add up to the number of parsed records of
    the input mapping, and the table has grown by the stored count. *)
Theorem upsert_accounting (ok : nat -> bool) (all_data : dict (list StockPrice))
    (db db' : table) (stored skipped : nat) :
  store_all_data ok all_data db = (db', Some (stored, skipped)) ->
  stored + skipped = total_records all_data /\
  List.length db' = List.length db + stored.
Proof.
  intros Hrun.
  destruct (store_all_data_spec ok all_data db) as [added [Hdb [_ Hres]]].
  rewrite Hrun in Hdb, Hres. cbn [fst snd] in Hdb, Hres.
  destruct Hres as [Hst [Hsum _]].
  split; [exact Hsum | ]. rewrite Hdb, length_app. lia.
Qed.

(** C2: every table that the ingestion can reach has unique (symbol, date)
    keys; every store phase preserves that, and only appends rows. *)
Theorem uniqueness_invariant :
  (forall db, reachable db -> unique_keys db) /\
  (forall ok all_data db,
      unique_keys db -> unique_keys (fst (store_all_data ok all_data db))) /\
  (forall ok all_data db,
      exists added, fst (store_all_data ok all_data db) = db ++ added).
Proof.
  assert (Hstep : forall ok all_data db,
             unique_keys db -> unique_keys (fst (store_all_data ok all_data db))).
  { intros ok all_data db Hu.
    destruct (store_all_data_spec ok all_data db) as [added [Hdb [Hkeep _]]].
    rewrite Hdb. apply Hkeep, Hu. }
  split; [ | split].
  - induction 1 as [ | ok all_data db _ IH].
    + constructor.
    + apply Hstep, IH.
  - exact Hstep.
  - intros ok all_data db.
    destruct (store_all_data_spec ok all_data db) as [added [Hdb _]].
    exists added. exact Hdb.
Qed.

Lemma upsert_accounting_witness :
  store_all_data all_commits two_symbols_batch [] =
    ([january "JPM" 1 150; january "JPM" 2 153; january "BAC" 1 30;
      january "BAC" 2 33], Some (4, 1)) /\
  4 + 1 = total_records two_symbols_batch /\
  List.length [january "JPM" 1 150; january "JPM" 2 153; january "BAC" 1 30;
               january "BAC" 2 33] = List.length (@nil StockPrice) + 4.
Proof.
  split; [vm_compute; reflexivity | ].
  apply (upsert_accounting all_commits two_symbols_batch []).
  vm_compute. reflexivity.
Defined.

Lemma uniqueness_invariant_witness :
  reachable (fst (store_all_data all_commits two_symbols_batch [])) /\
  unique_keys (fst (store_all_data all_commits two_symbols_batch [])) /\
  unique_keys (fst (store_all_data third_commit_refused two_symbols_batch
                      (fst (store_all_data all_commits two_symbols_batch [])))).
Proof.
  assert (Hreach : reachable (fst (store_all_data all_commits two_symbols_batch [])))
    by (apply reachable_ingest, reachable_empty).
  split; [exact Hreach | split].
  - apply (proj1 uniqueness_invariant), Hreach.
  - apply (proj1 (proj2 uniqueness_invariant)).
    apply (proj1 uniqueness_invariant), Hreach.
Defined.

(** ** Replaying a batch *)

Lemma store_records_present (records : list StockPrice) :
  forall st,
    (forall r, In r records -> In (key r) (map key (visible (sess st)))) ->
    store_records records st =
      (mk_ingest (sess st) (total_stored st)
         (total_skipped st + List.length records), Return tt).
Proof.
  induction records as [ | r rest IH]; intros st Hall.
  - destruct st as [s a b]. cbn. rewrite Nat.add_0_r. reflexivity.
  - cbn [store_records].
    destruct (proj2 (query_first_found (sess st) r) (Hall r (or_introl eq_refl)))
      as [row Hrow].
    rewrite Hrow, IH.
    + cbn [sess total_stored total_skipped List.length]. do 2 f_equal. lia.
    + intros r' Hr'. apply Hall. right. exact Hr'.
Qed.

(** A batch whose keys are all committed already changes nothing: every
    record is skipped. *)
Lemma store_symbols_present (items : dict (list StockPrice)) :
  forall ok k st,
    pending (sess st) = [] ->
    (forall s recs r, In (s, recs) items -> In r recs ->
                      In (key r) (map key (committed (sess st)))) ->
    sess (fst (store_symbols ok k items st)) = sess st /\
    ((forall j, j < List.length items -> ok (k + j) = true) ->
     store_symbols ok k items st =
       (mk_ingest (sess st) (total_stored st)
          (total_skipped st + total_records items), Return tt)).
Proof.
  induction items as [ | [s recs] rest IH]; intros ok k st Hpending Hall.
  - destruct st as [se a b]. cbn. rewrite Nat.add_0_r. auto.
  - cbn [store_symbols].
    rewrite store_records_present.
    2:{ intros r Hr. unfold visible. rewrite Hpending, app_nil_r.
        apply (Hall s recs r (or_introl eq_refl) Hr). }
    cbn [sess total_stored total_skipped].
    assert (Hsame : mk_session (committed (sess st) ++ pending (sess st)) [] = sess st).
    { destruct (sess st) as [c p]. cbn in *. subst p. rewrite app_nil_r. reflexivity. }
    destruct (ok k) eqn:Hok; cbn [session_commit].
    + rewrite Hsame.
      destruct (IH ok (S k)
                  (mk_ingest (sess st) (total_stored st)
                     (total_skipped st + List.length recs)) Hpending
                  (fun s0 recs0 r Hin Hr => Hall s0 recs0 r (or_intror Hin) Hr))
        as [Hsess Hdone].
      cbn [sess total_stored total_skipped] in *.
      split; [exact Hsess | ].
      intros Hoks. rewrite Hdone.
      * cbn [total_records fold_right snd]. fold (total_records rest).
        do 2 f_equal. lia.
      * intros j Hj. replace (S k + j) with (k + S j) by lia.
        apply Hoks. cbn [List.length]. lia.
    + cbn [fst sess]. split; [reflexivity | ].
      intros Hoks. specialize (Hoks 0 ltac:(cbn [List.length]; lia)).
      rewrite Nat.add_0_r in Hoks. congruence.
Qed.

Lemma store_all_data_present (ok : nat -> bool)
    (all_data : dict (list StockPrice)) (db : table) :
  (forall s recs r, In (s, recs) all_data -> In r recs -> In (key r) (map key db)) ->
  fst (store_all_data ok all_data db) = db /\
  ((forall j, j < List.length all_data -> ok j = true) ->
   store_all_data ok all_data db = (db, Some (0, total_records all_data))).
Proof.
  intros Hall.
  destruct (store_symbols_present all_data ok 0 (mk_ingest (get_session db) 0 0)
              eq_refl Hall) as [Hsess Hdone].
  unfold store_all_data. split.
  - destruct (store_symbols ok 0 all_data _) as [st [[] | e]];
      cbn [fst] in Hsess; cbn [fst]; rewrite Hsess; reflexivity.
  - intros Hoks. rewrite (Hdone Hoks). reflexivity.
Qed.

(** C1: after a store phase that completed, a second store phase over the
    same batch leaves the table as it is, whatever the commits do; when its
    commits are accepted it reports 0 stored and the whole batch skipped. *)
Theorem ingestion_idempotent (ok : nat -> bool)
    (all_data : dict (list StockPrice)) (db db1 : table) (stored skipped : nat) :
  store_all_data ok all_data db = (db1, Some (stored, skipped)) ->
  (forall ok2, fst (store_all_data ok2 all_data db1) = db1) /\
  (forall ok2, (forall j, j < List.length all_data -> ok2 j = true) ->
     store_all_data ok2 all_data db1 = (db1, Some (0, total_records all_data))).
Proof.
  intros Hrun.
  destruct (store_all_data_spec ok all_data db) as [added [Hdb [_ Hres]]].
  rewrite Hrun in Hdb, Hres. cbn [fst snd] in Hdb, Hres.
  destruct Hres as [_ [_ [Hkeys _]]]. rewrite <- Hdb in Hkeys.
  split; intros ok2.
  - apply (store_all_data_present ok2 all_data db1 Hkeys).
  - apply (store_all_data_present ok2 all_data db1 Hkeys).
Qed.

Lemma ingestion_idempotent_witness :
  store_all_data all_commits two_symbols_batch [january "BAC" 2 33] =
    ([january "BAC" 2 33; january "JPM" 1 150; january "JPM" 2 153;
      january "BAC" 1 30], Some (3, 2)) /\
  store_all_data all_commits two_symbols_batch
    [january "BAC" 2 33; january "JPM" 1 150; january "JPM" 2 153;
     january "BAC" 1 30] =
    ([january "BAC" 2 33; january "JPM" 1 150; january "JPM" 2 153;
      january "BAC" 1 30], Some (0, total_records two_symbols_batch)).
Proof.
  split; [vm_compute; reflexivity | ].
  apply (proj2 (ingestion_idempotent all_commits two_symbols_batch
                  [january "BAC" 2 33] _ 3 2 ltac:(vm_compute; reflexivity))).
  intros j _. reflexivity.
Defined.

(** ** Persistence failures *)

Lemma store_symbols_app (ok : nat -> bool) (front back : dict (list StockPrice)) :
  forall k st,
    store_symbols ok k (front ++ back) st =
    match store_symbols ok k front st with
    | (st1, Return _) => store_symbols ok (k + List.length front) back st1
    | (st1, Raise e) => (st1, Raise e)
    end.
Proof.
  induction front as [ | [s recs] rest IH]; intros k st.
  - cbn. rewrite Nat.add_0_r. reflexivity.
  - cbn [store_symbols app List.length].
    destruct (store_records recs st) as [st1 [[] | e]]; [ | reflexivity].
    destruct (session_commit (ok k) (sess st1)) as [s1 | e]; [ | reflexivity].
    rewrite IH. replace (S k + List.length rest) with (k + S (List.length rest)) by lia.
    reflexivity.
Qed.

(** A refused commit: the rows of the symbols before it stay, the rows of
    its own symbol are rolled back, the later symbols are not stored, and
    the method returns [False]. *)
Lemma store_all_data_refused_commit (ok : nat -> bool)
    (front back : dict (list StockPrice)) (s : string) (recs : list StockPrice)
    (db : table) :
  (forall j, j < List.length front -> ok j = true) ->
  ok (List.length front) = false ->
  (exists summary, snd (store_all_data ok front db) = Some summary) /\
  store_all_data ok (front ++ (s, recs) :: back) db =
    (fst (store_all_data ok front db), None).
Proof.
  intros Hfront Hrefused.
  split; [apply store_all_data_completes, Hfront | ].
  unfold store_all_data. rewrite store_symbols_app.
  destruct (store_symbols_spec front ok 0 (mk_ingest (get_session db) 0 0) eq_refl)
    as [st1 [res [added [Hrun [_ [_ Hres]]]]]].
  rewrite Hrun. destruct res as [[] | e].
  - destruct Hres as [Hpending _].
    cbn [store_symbols Nat.add fst session_close].
    destruct (store_records_spec recs st1) as [added1 [Hrecs _]].
    rewrite Hrecs, Hrefused. reflexivity.
  - destruct Hres as [_ [j [Hj Hfalse]]]. cbn [Nat.add] in Hfalse.
    rewrite (Hfront j Hj) in Hfalse. discriminate.
Qed.

(** C3, as amended: a refused commit rolls back the current symbol only and
    keeps the rows of the earlier symbols; and it ends the run, in the
    ingestion as in the setup: [run] returns [False] and prints no
    report. *)
Theorem persistence_failure_scope `{Builtins} :
  (forall ok front back s recs db,
      (forall j, j < List.length front -> ok j = true) ->
      ok (List.length front) = false ->
      (exists summary, snd (store_all_data ok front db) = Some summary) /\
      store_all_data ok (front ++ (s, recs) :: back) db =
        (fst (store_all_data ok front db), None)) /\
  (forall env symbols db tr db',
      setup_database env = true ->
      fetch_and_store_data env symbols db = (tr, db', Return None) ->
      run env symbols db = mk_run_result tr db' (Return false) None) /\
  (forall env symbols db,
      tables_ok env = false ->
      run env symbols db = mk_run_result [] db (Return false) None).
Proof.
  split; [ | split].
  - intros ok front back s recs db. apply store_all_data_refused_commit.
  - intros env symbols db tr db' Hsetup Hingest.
    unfold run. rewrite Hsetup, Hingest. reflexivity.
  - intros env symbols db Htables.
    unfold run, setup_database. rewrite Htables.
    destruct (connection_ok env); reflexivity.
Qed.

Lemma persistence_failure_scope_witness :
  third_commit_refused (List.length (firstn 2 two_symbols_batch)) = false /\
  store_all_data third_commit_refused
    (two_symbols_batch ++ [("WFC", [january "WFC" 1 45])]) [] =
    (fst (store_all_data third_commit_refused two_symbols_batch []), None) /\
  run third_commit_fails self_symbols [] =
    mk_run_result
      (fst (fst (fetch_and_store_data third_commit_fails self_symbols [])))
      (snd (fst (fetch_and_store_data third_commit_fails self_symbols [])))
      (Return false) None.
Proof.
  split; [reflexivity | split].
  - apply (proj1 persistence_failure_scope third_commit_refused two_symbols_batch
             [] "WFC" [january "WFC" 1 45] []).
    + intros [ | [ | j]] Hj; [reflexivity | reflexivity | cbn in Hj; lia].
    + reflexivity.
  - apply (proj1 (proj2 persistence_failure_scope) third_commit_fails).
    + reflexivity.
    + vm_compute. reflexivity.
Defined.

(** C3, as stated, fails: with a sound setup, the refused commit of the
    third symbol makes [run] return [False] without a report; the rows of
    the first two symbols are in the table. *)
Lemma ingest_failure_aborts_run :
  setup_database third_commit_fails = true /\
  run_returned (run third_commit_fails self_symbols []) = Return false /\
  run_report (run third_commit_fails self_symbols []) = None /\
  map symbol (run_table (run third_commit_fails self_symbols [])) =
    ["JPM"; "JPM"; "BAC"; "BAC"].
Proof.
  vm_compute. repeat split; reflexivity.
Qed.

(** ** Report *)

Ltac by_date_cases :=
  unfold datetime_ltb; cbn [year month day];
  repeat match goal with
         | |- context [Z.ltb ?x ?y] => destruct (Z.ltb_spec x y)
         | |- context [Z.eqb ?x ?y] => destruct (Z.eqb_spec x y)
         | H : context [Z.ltb ?x ?y] |- _ => destruct (Z.ltb_spec x y)
         | H : context [Z.eqb ?x ?y] |- _ => destruct (Z.eqb_spec x y)
         end;
  cbn in *; try reflexivity; try discriminate; try lia.

Lemma datetime_ltb_asym (a b : datetime) :
  datetime_ltb a b = true -> datetime_ltb b a = false.
Proof.
  destruct a as [y1 m1 d1], b as [y2 m2 d2]. intros Hlt. revert Hlt. by_date_cases.
Qed.

Lemma not_earlier_trans (a b c : StockPrice) :
  not_earlier a b -> not_earlier b c -> not_earlier a c.
Proof.
  unfold not_earlier.
  destruct (date a) as [y1 m1 d1], (date b) as [y2 m2 d2], (date c) as [y3 m3 d3].
  intros Hab Hbc. revert Hab Hbc. by_date_cases.
Qed.

Lemma insert_desc_perm (row : StockPrice) (sorted : table) :
  Permutation (insert_desc row sorted) (row :: sorted).
Proof.
  induction sorted as [ | r rest IH]; cbn [insert_desc]; [reflexivity | ].
  destruct (datetime_ltb (date row) (date r)); [ | reflexivity].
  rewrite IH. apply perm_swap.
Qed.

Lemma order_by_date_desc_perm (rows : table) :
  Permutation (order_by_date_desc rows) rows.
Proof.
  induction rows as [ | r rest IH]; cbn [order_by_date_desc]; [reflexivity | ].
  rewrite insert_desc_perm. apply perm_skip, IH.
Qed.

Lemma insert_desc_sorted (row : StockPrice) (sorted : table) :
  StronglySorted not_earlier sorted ->
  StronglySorted not_earlier (insert_desc row sorted).
Proof.
  induction 1 as [ | r rest Hrest IH Hall]; cbn [insert_desc].
  - repeat constructor.
  - destruct (datetime_ltb (date row) (date r)) eqn:Hlt.
    + constructor; [exact IH | ].
      apply (Permutation_Forall (Permutation_sym (insert_desc_perm row rest))).
      constructor; [apply datetime_ltb_asym, Hlt | exact Hall].
    + constructor; [constructor; assumption | ].
      constructor; [exact Hlt | ].
      apply (Forall_impl _ (fun c Hc => not_earlier_trans row r c Hlt Hc) Hall).
Qed.

(** X16: the rows that the two report queries read: the rows of the
    symbol, each once, newest date first, whatever the order they were
    stored in. *)
Lemma query_symbol_desc_sorted (db : table) (s : string) :
  StronglySorted not_earlier (query_symbol_desc db s) /\
  Permutation (query_symbol_desc db s)
    (filter (fun row => String.eqb (symbol row) s) db).
Proof.
  unfold query_symbol_desc. split; [ | apply order_by_date_desc_perm].
  induction (filter _ db) as [ | r rest IH]; cbn [order_by_date_desc].
  - constructor.
  - apply insert_desc_sorted, IH.
Qed.

Lemma metrics_format_refused :
  format_fields [(FmtStr, "<10"); (FmtFloat, "+.2f:<13"); (FmtFloat, "+.2f")] =
    Raise ValueError.
Proof. vm_compute. reflexivity. Qed.


(** X17: the metrics loop never prints a line, and it stops at the first
    symbol that has two rows: the values of at most one symbol are
    computed. *)
Lemma performance_metrics_prints_nothing (db : table) (symbols : list string) :
  forall out,
    metric_lines (fst (performance_metrics db symbols out)) = metric_lines out /\
    List.length (computed (fst (performance_metrics db symbols out))) <=
      List.length (computed out) + 1.
Proof.
  induction symbols as [ | s rest IH]; intros out; cbn [performance_metrics].
  - cbn. split; [reflexivity | lia].
  - destruct (firstn 2 (query_symbol_desc db s)) as [ | current [ | previous [ | ? ?]]];
      try apply IH.
    destruct (PrimFloat.eqb (close_price previous) 0);
      [cbn; split; [reflexivity | lia] | ].
    rewrite metrics_format_refused. cbn. rewrite length_app. cbn.
    split; [reflexivity | lia].
Qed.

(** C8 at a table with two symbols of two days each: the change of the
    first symbol is computed (3.00 and 2.00 per cent, from the two latest
    dates), then the invalid format [+.2f:<13] of the [print] raises
    [ValueError]; no metrics line is printed and the second symbol is never
    reached. *)
Theorem report_stops_at_first_metric :
  generate_analytics_report two_symbols_table ["JPM"; "BAC"] =
    (mk_report
       [("JPM", mk_datetime 2024 1 2, 153%float, 1000%Z);
        ("BAC", mk_datetime 2024 1 2, 33%float, 1000%Z)]
       [("JPM", 3%float, 2%float)]
       [],
     Some ValueError).
Proof. vm_compute. reflexivity. Qed.

(** * Further properties *)

(** ** What the single-symbol fetch accepts *)

(** X1: the fetch returns a series exactly for a JSON object that has no
    ["Error Message"] and no ["Note"] key and whose ["Time Series (Daily)"]
    value has a length (an object, a list or a text); the series is that
    value, unchanged. A note or an error message wins over a series sent
    with it. *)
Theorem fetch_daily_data_returns_series (o : http_outcome) (ts : json) :
  fetch_daily_data o = Return (Some ts) <->
  exists kv,
    o = Body (JObj kv) /\
    assoc "Error Message" kv = None /\
    assoc "Note" kv = None /\
    assoc "Time Series (Daily)" kv = Some ts /\
    exists n, py_len ts = Return n.
Proof.
  split.
  - intros Hrun.
    destruct (failure_kind_of o) as [k | ] eqn:Hkind.
    { rewrite (fetch_daily_data_failure o k Hkind) in Hrun. discriminate Hrun. }
    destruct o as [ | | | data]; try discriminate Hkind.
    destruct data as [ | b | z | f | s | l | kv]; try discriminate Hkind.
    exists kv. split; [reflexivity | ].
    revert Hrun Hkind. unfold fetch_daily_data, fetch_daily_data_body. cbn.
    destruct (assoc "Error Message" kv); cbn; [discriminate | ].
    destruct (assoc "Note" kv); cbn; [discriminate | ].
    destruct (assoc "Time Series (Daily)" kv) as [ts' | ]; cbn; [ | discriminate].
    destruct ts'; cbn; intros Hrun Hkind; try discriminate Hrun;
      injection Hrun as <-; repeat split; cbn; eauto.
  - intros [kv [-> [Herr [Hnote [Hseries [n Hlen]]]]]].
    unfold fetch_daily_data, fetch_daily_data_body. cbn.
    rewrite Herr, Hnote, Hseries. cbn. rewrite Hlen. reflexivity.
Qed.

(** ** What the parser returns *)

Lemma parse_loop_kept `{Builtins} (sym : string) (clock : nat -> Z)
    (items : list (string * json)) :
  forall k acc recs,
    parse_loop sym clock k items acc = Return recs ->
    recs = acc ++ kept_records sym clock k items.
Proof.
  induction items as [ | [date_str values] rest IH]; intros k acc recs Hrun.
  - cbn in *. injection Hrun as <-. symmetry. apply app_nil_r.
  - cbn [parse_loop kept_records] in *.
    destruct (parse_record sym date_str values (clock k)) as [r | e];
      cbn [bind try_except_in] in Hrun.
    + rewrite (IH _ _ _ Hrun), <- app_assoc. reflexivity.
    + destruct (existsb (exn_eqb e) [KeyError; ValueError]); cbn [bind] in Hrun.
      * apply (IH _ _ _ Hrun).
      * discriminate Hrun.
Qed.

Lemma kept_records_length `{Builtins} (sym : string) (clock : nat -> Z)
    (items : list (string * json)) :
  forall k, List.length (kept_records sym clock k items) <= List.length items.
Proof.
  induction items as [ | [date_str values] rest IH]; intros k; cbn; [lia | ].
  specialize (IH (S k)).
  destruct (parse_record sym date_str values (clock k)); cbn; lia.
Qed.

(** X2: what the parser returns is the list of the records of the entries
    that parse, in the order of the series, entry [k] stamped with the
    [k]-th clock reading; so it never returns more records than entries. *)
Theorem parse_stock_data_in_order `{Builtins} (sym : string) (clock : nat -> Z)
    (time_series_data : json) (recs : list StockPrice) :
  parse_stock_data sym clock time_series_data = Return recs ->
  exists items,
    time_series_data = JObj items /\
    recs = kept_records sym clock 0 items /\
    List.length recs <= List.length items.
Proof.
  unfold parse_stock_data. intros Hrun.
  destruct time_series_data as [ | b | z | f | s | l | items];
    try discriminate Hrun.
  cbn [py_items bind] in Hrun.
  exists items. split; [reflexivity | ].
  rewrite (parse_loop_kept sym clock items 0 [] recs Hrun). cbn [app].
  split; [reflexivity | apply kept_records_length].
Qed.

Lemma parse_stock_data_in_order_witness :
  parse_stock_data "JPM" no_clock series_text_close =
    Return [mk_StockPrice "JPM" (mk_datetime 2024 1 2) 151 154 150.5 153 1200 0] /\
  exists items,
    series_text_close = JObj items /\
    [mk_StockPrice "JPM" (mk_datetime 2024 1 2) 151 154 150.5 153 1200 0] =
      kept_records "JPM" no_clock 0 items /\
    List.length [mk_StockPrice "JPM" (mk_datetime 2024 1 2) 151 154 150.5 153 1200 0]
      <= List.length items.
Proof.
  split; [vm_compute; reflexivity | ].
  apply (parse_stock_data_in_order "JPM" no_clock series_text_close).
  vm_compute. reflexivity.
Defined.

Lemma first_day_parses :
  Forall entry_parses
    [("2024-01-02", day_entry (JStr "151.00") (JStr "154.00") (JStr "150.50")
                      (JStr "153.00") (JStr "1200"))].
Proof.
  constructor; [ | constructor].
  intros sym now. eexists. vm_compute. reflexivity.
Qed.

Lemma parse_stock_data_drops_one_witness :
  entry_dropped
    ("2024-01-01", day_entry (JStr "149.00") (JStr "151.00") (JStr "148.00")
                     (JStr "n/a") (JStr "1000")) /\
  exists recs,
    parse_stock_data "JPM" no_clock series_text_close = Return recs /\
    List.length recs = 2 - 1.
Proof.
  assert (Hbad : entry_dropped
            ("2024-01-01", day_entry (JStr "149.00") (JStr "151.00") (JStr "148.00")
                             (JStr "n/a") (JStr "1000")))
    by (intros sym now; right; vm_compute; reflexivity).
  split; [exact Hbad | ].
  exact (parse_stock_data_drops_one "JPM" no_clock _ [] _
           first_day_parses Hbad (Forall_nil _)).
Defined.

Lemma parse_stock_data_propagates_witness :
  existsb (exn_eqb TypeError) [KeyError; ValueError] = false /\
  parse_stock_data "JPM" no_clock series_null_close = Raise TypeError.
Proof.
  split; [reflexivity | ].
  apply (parse_stock_data_propagates "JPM" no_clock
           [("2024-01-02", day_entry (JStr "151.00") (JStr "154.00") (JStr "150.50")
                             (JStr "153.00") (JStr "1200"))]
           []
           ("2024-01-01", day_entry (JStr "149.00") (JStr "151.00") (JStr "148.00")
                            JNull (JStr "1000"))
           TypeError first_day_parses).
  - intros now. vm_compute. reflexivity.
  - reflexivity.
Defined.

(** ** The mapping built by the batch fetch *)

Lemma dict_set_keys {V : Type} (d : dict V) (k : string) (v : V) :
  map fst (dict_set d k v) = add_symbol (map fst d) k.
Proof.
  unfold add_symbol.
  induction d as [ | [k' v'] rest IH]; cbn [dict_set map fst].
  - destruct (in_dec string_dec k []) as [[] | _]. reflexivity.
  - destruct (String.eqb_spec k' k) as [-> | Hne]; cbn [map fst].
    + destruct (in_dec string_dec k (k :: map fst rest)) as [_ | Hno];
        [reflexivity | ].
      exfalso. apply Hno. left. reflexivity.
    + rewrite IH.
      destruct (in_dec string_dec k (map fst rest)) as [Hin | Hno];
        destruct (in_dec string_dec k (k' :: map fst rest)) as [Hin' | Hno'];
        try reflexivity.
      * exfalso. apply Hno'. right. exact Hin.
      * destruct Hin' as [E | Hin']; [congruence | contradiction].
Qed.

Lemma fold_add_symbol_spec (symbols : list string) :
  forall seen,
    NoDup seen ->
    NoDup (fold_left add_symbol symbols seen) /\
    (forall s, In s (fold_left add_symbol symbols seen) <->
               In s seen \/ In s symbols).
Proof.
  induction symbols as [ | a rest IH]; intros seen Hseen; cbn [fold_left].
  - split; [exact Hseen | ]. intros s. cbn. tauto.
  - assert (Hnext : NoDup (add_symbol seen a) /\
                    (forall s, In s (add_symbol seen a) <-> In s seen \/ a = s)).
    { unfold add_symbol. destruct (in_dec string_dec a seen) as [Hin | Hno].
      - split; [exact Hseen | ]. intros s. split; [auto | ].
        intros [Hs | <-]; assumption.
      - split.
        + apply NoDup_app; [exact Hseen | repeat constructor; intros [] | ].
          intros s Hs [<- | []]. exact (Hno Hs).
        + intros s. rewrite in_app_iff. cbn. tauto. }
    destruct Hnext as [Hnodup Hmem].
    destruct (IH (add_symbol seen a) Hnodup) as [Hnd Hin].
    split; [exact Hnd | ].
    intros s. rewrite Hin, Hmem. cbn. tauto.
Qed.

Lemma fetch_loop_keys `{Builtins} provider clock delay len symbols :
  forall i all_data tr,
    parser_returns provider clock i symbols ->
    exists d,
      snd (fetch_loop provider clock delay len i symbols all_data tr) = Return d /\
      map fst d = fold_left add_symbol symbols (map fst all_data).
Proof.
  induction symbols as [ | s rest IH]; intros i all_data tr Hsafe.
  - exists all_data. split; reflexivity.
  - rewrite fetch_loop_step.
    2:{ intros ts Hts. pose proof (Hsafe 0 s ts eq_refl) as Hhead.
        rewrite Nat.add_0_r in Hhead. exact (Hhead Hts). }
    destruct (IH (S i) (dict_set all_data s (stored_for provider clock i s))
                (tr ++ Request s ::
                   (if is_some (fetched provider i s) && Nat.ltb i (len - 1)
                    then [Sleep delay] else []))
                (parser_returns_tail _ _ _ _ _ Hsafe)) as [d [Hrun Hkeys]].
    exists d. split; [exact Hrun | ].
    rewrite Hkeys, dict_set_keys. reflexivity.
Qed.

(** X3: the mapping that the batch fetch returns has the requested
    symbols as keys, each once, in the order of their first occurrence; a
    symbol requested twice has one entry. *)
Theorem fetch_multiple_symbols_keys `{Builtins} provider clock symbols delay :
  parser_returns provider clock 0 symbols ->
  exists all_data,
    snd (fetch_multiple_symbols provider clock symbols delay) = Return all_data /\
    map fst all_data = distinct_symbols symbols /\
    NoDup (map fst all_data) /\
    (forall s, In s (map fst all_data) <-> In s symbols) /\
    List.length all_data <= List.length symbols.
Proof.
  intros Hsafe. unfold fetch_multiple_symbols.
  destruct (fetch_loop_keys provider clock delay (List.length symbols) symbols
              0 [] [] Hsafe) as [d [Hrun Hkeys]].
  destruct (fold_add_symbol_spec symbols [] (NoDup_nil _)) as [Hnd Hin].
  cbn [map] in Hkeys. fold (distinct_symbols symbols) in Hkeys, Hnd, Hin.
  exists d. rewrite Hkeys.
  split; [exact Hrun | split; [reflexivity | split; [exact Hnd | split]]].
  - intros s. rewrite Hin. cbn. tauto.
  - rewrite <- (length_map fst d), Hkeys.
    apply NoDup_incl_length; [exact Hnd | ].
    intros s Hs. apply Hin in Hs. destruct Hs as [[] | Hs]. exact Hs.
Qed.

Lemma fetch_multiple_symbols_keys_witness :
  parser_returns note_then_data (fun _ => no_clock) 0 ["JPM"; "BAC"; "JPM"] /\
  exists all_data,
    snd (fetch_multiple_symbols note_then_data (fun _ => no_clock)
           ["JPM"; "BAC"; "JPM"] 12) = Return all_data /\
    map fst all_data = distinct_symbols ["JPM"; "BAC"; "JPM"] /\
    NoDup (map fst all_data) /\
    (forall s, In s (map fst all_data) <-> In s ["JPM"; "BAC"; "JPM"]) /\
    List.length all_data <= List.length ["JPM"; "BAC"; "JPM"].
Proof.
  assert (Hsafe : parser_returns note_then_data (fun _ => no_clock) 0
                    ["JPM"; "BAC"; "JPM"]).
  { intros [ | [ | [ | j]]] s ts Hj Hts.
    - injection Hj as <-. discriminate Hts.
    - injection Hj as <-. injection Hts as <-. eexists. vm_compute. reflexivity.
    - injection Hj as <-. injection Hts as <-. eexists. vm_compute. reflexivity.
    - destruct j; discriminate Hj. }
  split; [exact Hsafe | ].
  exact (fetch_multiple_symbols_keys note_then_data (fun _ => no_clock)
           ["JPM"; "BAC"; "JPM"] 12 Hsafe).
Defined.

(** ** A parser exception in the batch *)

Lemma fetch_loop_prefix `{Builtins} provider clock delay len front rest :
  forall i all_data tr,
    parser_returns provider clock i front ->
    exists d,
      fetch_loop provider clock delay len i (front ++ rest) all_data tr =
      fetch_loop provider clock delay len (i + List.length front) rest d
        (tr ++ expected_events provider delay len i front).
Proof.
  induction front as [ | s front IH]; intros i all_data tr Hsafe.
  - exists all_data. cbn. rewrite Nat.add_0_r, app_nil_r. reflexivity.
  - cbn [app]. rewrite fetch_loop_step.
    2:{ intros ts Hts. pose proof (Hsafe 0 s ts eq_refl) as Hhead.
        rewrite Nat.add_0_r in Hhead. exact (Hhead Hts). }
    destruct (IH (S i) (dict_set all_data s (stored_for provider clock i s))
                (tr ++ Request s ::
                   (if is_some (fetched provider i s) && Nat.ltb i (len - 1)
                    then [Sleep delay] else []))
                (parser_returns_tail _ _ _ _ _ Hsafe)) as [d Hrun].
    exists d. rewrite Hrun. cbn [List.length expected_events].
    replace (i + S (List.length front)) with (S i + List.length front) by lia.
    rewrite <- app_assoc. reflexivity.
Qed.

Lemma fetch_loop_parser_raises `{Builtins} provider clock delay len i s rest
    all_data tr ts e :
  fetched provider i s = Some ts ->
  parse_stock_data s (clock i) ts = Raise e ->
  fetch_loop provider clock delay len i (s :: rest) all_data tr =
    (tr ++ [Request s], Raise e).
Proof.
  intros Hts Hparse. cbn [fetch_loop]. unfold fetched in Hts.
  destruct (fetch_daily_data_total (provider i s)) as [v Hv]. rewrite Hv in *.
  rewrite Hts, Hparse. reflexivity.
Qed.

(** X4: an exception that leaves the parser at one symbol ends the batch
    and the run: the symbols after it are never requested, nothing is
    stored (the table is as before, also for the symbols fetched so far),
    no report is made, and [run] itself raises the exception. *)
Theorem parser_exception_ends_run `{Builtins} (env : environment)
    (front back : list string) (s : string) (ts : json) (e : exn) (db : table) :
  setup_database env = true ->
  parser_returns (provider env) (clock env) 0 front ->
  fetched (provider env) (List.length front) s = Some ts ->
  parse_stock_data s (clock env (List.length front)) ts = Raise e ->
  run_returned (run env (front ++ s :: back) db) = Raise e /\
  run_table (run env (front ++ s :: back) db) = db /\
  run_report (run env (front ++ s :: back) db) = None /\
  requests (run_events (run env (front ++ s :: back) db)) = front ++ [s].
Proof.
  intros Hsetup Hsafe Hts Hparse.
  unfold run, fetch_and_store_data, fetch_multiple_symbols. rewrite Hsetup.
  cbn [negb].
  destruct (fetch_loop_prefix (provider env) (clock env) 12
              (List.length (front ++ s :: back)) front (s :: back) 0 [] [] Hsafe)
    as [d Hrun].
  rewrite Hrun. cbn [Nat.add app].
  rewrite (fetch_loop_parser_raises _ _ _ _ _ _ _ _ _ ts e Hts Hparse).
  cbn [run_returned run_table run_report run_events].
  repeat split.
  unfold requests in *. rewrite flat_map_app.
  change (flat_map _ (expected_events ?p ?d ?l ?i ?f)) with
    (requests (expected_events p d l i f)).
  rewrite requests_expected_events. reflexivity.
Qed.

Lemma parser_exception_ends_run_witness :
  setup_database list_series_environment = true /\
  run_returned (run list_series_environment (["JPM"] ++ "BAC" :: ["WFC"; "GS"; "MS"]) [])
    = Raise AttributeError /\
  run_table (run list_series_environment (["JPM"] ++ "BAC" :: ["WFC"; "GS"; "MS"]) [])
    = [] /\
  run_report (run list_series_environment (["JPM"] ++ "BAC" :: ["WFC"; "GS"; "MS"]) [])
    = None /\
  requests (run_events
              (run list_series_environment (["JPM"] ++ "BAC" :: ["WFC"; "GS"; "MS"]) []))
    = ["JPM"] ++ ["BAC"].
Proof.
  split; [reflexivity | ].
  apply (parser_exception_ends_run list_series_environment ["JPM"]
           ["WFC"; "GS"; "MS"] "BAC" (JArr [JStr "2024-01-02"]) AttributeError []).
  - reflexivity.
  - intros [ | j] s ts Hj Hts.
    + injection Hj as <-. injection Hts as <-. eexists. vm_compute. reflexivity.
    + destruct j; discriminate Hj.
  - reflexivity.
  - reflexivity.
Defined.

(** ** When and what the store phase writes *)

Lemma query_first_existsb (s : session) (r : StockPrice) :
  existsb (has_key (symbol r) (date r)) (visible s) =
  match query_first s (symbol r) (date r) with Some _ => true | None => false end.
Proof.
  destruct (query_first s (symbol r) (date r)) as [row | ] eqn:Hq.
  - apply existsb_has_key, query_first_found. eauto.
  - apply query_first_none in Hq.
    destruct (existsb _ _) eqn:Hex; [ | reflexivity].
    apply existsb_has_key in Hex. contradiction.
Qed.

Lemma fresh_rows_length (records : list StockPrice) :
  forall seen, List.length (fresh_rows seen records) <= List.length records.
Proof.
  induction records as [ | r rest IH]; intros seen; cbn [fresh_rows List.length];
    [lia | ].
  destruct (existsb _ seen); cbn [List.length].
  - specialize (IH seen). lia.
  - specialize (IH (seen ++ [r])). lia.
Qed.

Lemma fresh_rows_app (front back : list StockPrice) :
  forall seen,
    fresh_rows seen (front ++ back) =
    fresh_rows seen front ++ fresh_rows (seen ++ fresh_rows seen front) back.
Proof.
  induction front as [ | r rest IH]; intros seen; cbn [fresh_rows app].
  - rewrite app_nil_r. reflexivity.
  - destruct (existsb _ seen).
    + apply IH.
    + rewrite IH. cbn [app]. rewrite <- app_assoc. reflexivity.
Qed.

Lemma store_records_fresh (records : list StockPrice) :
  forall st,
    store_records records st =
      (mk_ingest
         (mk_session (committed (sess st))
            (pending (sess st) ++ fresh_rows (visible (sess st)) records))
         (total_stored st + List.length (fresh_rows (visible (sess st)) records))
         (total_skipped st +
          (List.length records -
           List.length (fresh_rows (visible (sess st)) records))),
       Return tt).
Proof.
  induction records as [ | r rest IH]; intros st.
  - destruct st as [[c p] a b]. cbn. rewrite app_nil_r, !Nat.add_0_r. reflexivity.
  - cbn [store_records fresh_rows]. rewrite query_first_existsb.
    destruct (query_first (sess st) (symbol r) (date r)) as [row | ] eqn:Hq.
    + rewrite IH. cbn [sess total_stored total_skipped List.length].
      pose proof (fresh_rows_length rest (visible (sess st))).
      do 2 f_equal. lia.
    + apply query_first_none in Hq.
      rewrite (session_add_fresh _ _ Hq), IH.
      cbn [sess total_stored total_skipped committed pending List.length].
      assert (Hvis : visible (mk_session (committed (sess st))
                                (pending (sess st) ++ [r])) =
                     visible (sess st) ++ [r])
        by (unfold visible; cbn; apply app_assoc).
      rewrite Hvis.
      pose proof (fresh_rows_length rest (visible (sess st) ++ [r])).
      rewrite <- app_assoc. cbn [app]. do 2 f_equal; lia.
Qed.

Lemma store_symbols_fresh (items : dict (list StockPrice)) :
  forall ok k st,
    pending (sess st) = [] ->
    (forall j, j < List.length items -> ok (k + j) = true) ->
    store_symbols ok k items st =
      (mk_ingest
         (mk_session
            (committed (sess st) ++
             fresh_rows (committed (sess st)) (all_records items)) [])
         (total_stored st +
          List.length (fresh_rows (committed (sess st)) (all_records items)))
         (total_skipped st +
          (total_records items -
           List.length (fresh_rows (committed (sess st)) (all_records items)))),
       Return tt).
Proof.
  induction items as [ | [s recs] rest IH]; intros ok k st Hpending Hoks.
  - destruct st as [[c p] a b]. cbn in *. subst p.
    rewrite app_nil_r, !Nat.add_0_r. reflexivity.
  - cbn [store_symbols]. rewrite store_records_fresh.
    assert (Hvis : visible (sess st) = committed (sess st))
      by (unfold visible; rewrite Hpending; apply app_nil_r).
    rewrite Hvis, Hpending. cbn [app sess].
    pose proof (Hoks 0 ltac:(cbn [List.length]; lia)) as Hok.
    rewrite Nat.add_0_r in Hok. rewrite Hok.
    cbn [session_commit committed pending].
    rewrite IH.
    + cbn [sess committed total_stored total_skipped].
      unfold all_records. cbn [map snd List.concat].
      fold (all_records rest). rewrite fresh_rows_app.
      cbn [total_records fold_right snd]. fold (total_records rest).
      pose proof (fresh_rows_length recs (committed (sess st))).
      pose proof (fresh_rows_length (all_records rest)
                    (committed (sess st) ++ fresh_rows (committed (sess st)) recs)).
      assert (Hall : List.length (all_records rest) = total_records rest).
      { clear. induction rest as [ | [s0 r0] rest IH]; [reflexivity | ].
        unfold all_records in *. cbn. rewrite length_app, IH. reflexivity. }
      rewrite <- app_assoc, !length_app. do 2 f_equal; lia.
    + reflexivity.
    + intros j Hj. replace (S k + j) with (k + S j) by lia.
      apply Hoks. cbn [List.length]. lia.
Qed.

(** X7: with its commits accepted, the store phase appends to the table,
    in the order of the mapping, exactly the records whose key is neither
    in the table nor carried by an earlier record of the batch; it reports
    their number as stored and the rest of the batch as skipped. Of two
    records with one key the first is kept. *)
Theorem store_all_data_appends_fresh (ok : nat -> bool)
    (all_data : dict (list StockPrice)) (db : table) :
  (forall j, j < List.length all_data -> ok j = true) ->
  store_all_data ok all_data db =
    (db ++ fresh_rows db (all_records all_data),
     Some (List.length (fresh_rows db (all_records all_data)),
           total_records all_data -
           List.length (fresh_rows db (all_records all_data)))).
Proof.
  intros Hoks. unfold store_all_data.
  rewrite (store_symbols_fresh all_data ok 0 (mk_ingest (get_session db) 0 0)
             eq_refl Hoks).
  reflexivity.
Qed.

Lemma store_all_data_appends_fresh_witness :
  store_all_data all_commits two_symbols_batch [january "BAC" 2 33] =
    ([january "BAC" 2 33] ++
     [january "JPM" 1 150; january "JPM" 2 153; january "BAC" 1 30],
     Some (3, 5 - 3)) /\
  fresh_rows [january "BAC" 2 33] (all_records two_symbols_batch) =
    [january "JPM" 1 150; january "JPM" 2 153; january "BAC" 1 30].
Proof.
  split; [ | vm_compute; reflexivity].
  exact (store_all_data_appends_fresh all_commits two_symbols_batch
           [january "BAC" 2 33] (fun j _ => eq_refl)).
Defined.

(** ** Table statistics *)

Lemma datetime_ltb_irrefl (a : datetime) : datetime_ltb a a = false.
Proof. destruct a as [y m d]. by_date_cases. Qed.

Lemma datetime_ltb_below (a m b : datetime) :
  datetime_ltb a m = true -> datetime_ltb b m = false -> datetime_ltb b a = false.
Proof.
  destruct a as [y1 m1 d1], m as [y2 m2 d2], b as [y3 m3 d3].
  intros H1 H2. revert H1 H2. by_date_cases.
Qed.

Lemma datetime_ltb_above (a m b : datetime) :
  datetime_ltb m a = true -> datetime_ltb m b = false -> datetime_ltb a b = false.
Proof.
  destruct a as [y1 m1 d1], m as [y2 m2 d2], b as [y3 m3 d3].
  intros H1 H2. revert H1 H2. by_date_cases.
Qed.

Lemma min_date_spec (rows : table) :
  match TableStats.min_date rows with
  | None => rows = []
  | Some m =>
      In m (map date rows) /\
      forall row, In row rows -> datetime_ltb (date row) m = false
  end.
Proof.
  induction rows as [ | r rest IH]; cbn [TableStats.min_date]; [reflexivity | ].
  destruct (TableStats.min_date rest) as [m | ].
  - destruct IH as [Hin Hmin].
    destruct (datetime_ltb (date r) m) eqn:Hlt.
    + split; [left; reflexivity | ].
      intros row [<- | Hrow]; [apply datetime_ltb_irrefl | ].
      apply (datetime_ltb_below _ m _ Hlt), Hmin, Hrow.
    + split; [right; exact Hin | ].
      intros row [<- | Hrow]; [exact Hlt | apply Hmin, Hrow].
  - subst rest. split; [left; reflexivity | ].
    intros row [<- | []]. apply datetime_ltb_irrefl.
Qed.

Lemma max_date_spec (rows : table) :
  match TableStats.max_date rows with
  | None => rows = []
  | Some m =>
      In m (map date rows) /\
      forall row, In row rows -> datetime_ltb m (date row) = false
  end.
Proof.
  induction rows as [ | r rest IH]; cbn [TableStats.max_date]; [reflexivity | ].
  destruct (TableStats.max_date rest) as [m | ].
  - destruct IH as [Hin Hmax].
    destruct (datetime_ltb m (date r)) eqn:Hlt.
    + split; [left; reflexivity | ].
      intros row [<- | Hrow]; [apply datetime_ltb_irrefl | ].
      apply (datetime_ltb_above _ m _ Hlt), Hmax, Hrow.
    + split; [right; exact Hin | ].
      intros row [<- | Hrow]; [exact Hlt | apply Hmax, Hrow].
  - subst rest. split; [left; reflexivity | ].
    intros row [<- | []]. apply datetime_ltb_irrefl.
Qed.

(** X8: the date range of the statistics: on an empty table both dates
    are missing; otherwise both are dates of rows, no row is earlier than
    the earliest and none is later than the latest. *)
Theorem get_table_stats_date_range (db : table) (st : TableStats.table_stats) :
  TableStats.get_table_stats true db = Some st ->
  (db = [] ->
   TableStats.earliest_date st = None /\ TableStats.latest_date st = None) /\
  (forall row, In row db ->
     exists e l,
       TableStats.earliest_date st = Some e /\
       TableStats.latest_date st = Some l /\
       In e (map date db) /\ In l (map date db) /\
       datetime_ltb (date row) e = false /\
       datetime_ltb l (date row) = false).
Proof.
  intros Hst. injection Hst as <-. cbn [TableStats.earliest_date TableStats.latest_date].
  split.
  - intros ->. split; reflexivity.
  - intros row Hrow.
    pose proof (min_date_spec db) as Hmin. pose proof (max_date_spec db) as Hmax.
    destruct (TableStats.min_date db) as [e | ]; [ | subst db; destruct Hrow].
    destruct (TableStats.max_date db) as [l | ]; [ | subst db; destruct Hrow].
    destruct Hmin as [He Hmin], Hmax as [Hl Hmax].
    exists e, l. repeat split; auto.
Qed.

Lemma get_table_stats_date_range_witness :
  TableStats.get_table_stats true two_symbols_table =
    Some (TableStats.mk_table_stats 4 2 (Some (mk_datetime 2024 1 1))
            (Some (mk_datetime 2024 1 2))) /\
  forall row, In row two_symbols_table ->
    exists e l,
      Some (mk_datetime 2024 1 1) = Some e /\
      Some (mk_datetime 2024 1 2) = Some l /\
      In e (map date two_symbols_table) /\ In l (map date two_symbols_table) /\
      datetime_ltb (date row) e = false /\
      datetime_ltb l (date row) = false.
Proof.
  split; [vm_compute; reflexivity | ].
  apply (proj2 (get_table_stats_date_range two_symbols_table
                  (TableStats.mk_table_stats 4 2 (Some (mk_datetime 2024 1 1))
                     (Some (mk_datetime 2024 1 2)))
                  ltac:(vm_compute; reflexivity))).
Defined.

Lemma count_distinct_symbols_le (rows : table) :
  TableStats.count_distinct_symbols rows <= List.length rows.
Proof.
  unfold TableStats.count_distinct_symbols.
  rewrite <- (length_map symbol rows).
  apply NoDup_incl_length; [apply NoDup_nodup | ].
  intros s Hs. apply nodup_In in Hs. exact Hs.
Qed.

Lemma count_distinct_symbols_app (rows added : table) :
  TableStats.count_distinct_symbols rows <=
  TableStats.count_distinct_symbols (rows ++ added).
Proof.
  unfold TableStats.count_distinct_symbols.
  apply NoDup_incl_length; [apply NoDup_nodup | ].
  intros s Hs. apply nodup_In in Hs. apply nodup_In.
  rewrite map_app. apply in_or_app. left. exact Hs.
Qed.

(** X9: statistics before and after a store phase that completed: the
    record count grows by exactly the stored count of the summary, the
    symbol count does not shrink, and it never exceeds the record count. *)
Theorem get_table_stats_after_store (ok : nat -> bool)
    (all_data : dict (list StockPrice)) (db db' : table) (stored skipped : nat)
    (st st' : TableStats.table_stats) :
  store_all_data ok all_data db = (db', Some (stored, skipped)) ->
  TableStats.get_table_stats true db = Some st ->
  TableStats.get_table_stats true db' = Some st' ->
  TableStats.total_records st' = TableStats.total_records st + stored /\
  TableStats.unique_symbols st <= TableStats.unique_symbols st' /\
  TableStats.unique_symbols st' <= TableStats.total_records st'.
Proof.
  intros Hrun Hst Hst'. injection Hst as <-. injection Hst' as <-.
  cbn [TableStats.total_records TableStats.unique_symbols].
  destruct (store_all_data_spec ok all_data db) as [added [Hdb [_ Hres]]].
  rewrite Hrun in Hdb, Hres. cbn [fst snd] in Hdb, Hres.
  destruct Hres as [Hstored _]. subst db' stored.
  split; [apply length_app | split].
  - apply count_distinct_symbols_app.
  - apply count_distinct_symbols_le.
Qed.

Lemma get_table_stats_after_store_witness :
  store_all_data all_commits two_symbols_batch [january "BAC" 2 33] =
    ([january "BAC" 2 33; january "JPM" 1 150; january "JPM" 2 153;
      january "BAC" 1 30], Some (3, 2)) /\
  4 = 1 + 3 /\ 1 <= 2 /\ 2 <= 4.
Proof.
  split; [vm_compute; reflexivity | ].
  exact (get_table_stats_after_store all_commits two_symbols_batch
           [january "BAC" 2 33]
           [january "BAC" 2 33; january "JPM" 1 150; january "JPM" 2 153;
            january "BAC" 1 30] 3 2
           (TableStats.mk_table_stats 1 1 (Some (mk_datetime 2024 1 2))
              (Some (mk_datetime 2024 1 2)))
           (TableStats.mk_table_stats 4 2 (Some (mk_datetime 2024 1 1))
              (Some (mk_datetime 2024 1 2)))
           ltac:(vm_compute; reflexivity) ltac:(vm_compute; reflexivity)
           ltac:(vm_compute; reflexivity)).
Defined.

(** ** What the report prints *)











(** ** When the run succeeds *)

(** X12: when no parser exception leaves the batch, [run] returns a truth
    value, and it returns [True] exactly when the setup succeeds and the
    commits, one for each distinct symbol, are accepted. The report is then
    made from the new table, and what happens in it does not change the
    result. *)
Theorem run_returns_true_iff `{Builtins} (env : environment)
    (symbols : list string) (db : table) :
  parser_returns (provider env) (clock env) 0 symbols ->
  (exists v, run_returned (run env symbols db) = Return v) /\
  (run_returned (run env symbols db) = Return true <->
   setup_database env = true /\
   forall j, j < List.length (distinct_symbols symbols) -> commit_ok env j = true) /\
  (run_returned (run env symbols db) = Return true ->
   run_report (run env symbols db) =
     Some (generate_analytics_report (run_table (run env symbols db)) symbols)).
Proof.
  intros Hsafe. unfold run.
  destruct (setup_database env); cbn [negb].
  2:{ cbn. split; [eauto | split; [ | discriminate]].
      split; [discriminate | intros [E _]; discriminate E]. }
  unfold fetch_and_store_data, fetch_multiple_symbols.
  destruct (fetch_loop_keys (provider env) (clock env) 12 (List.length symbols)
              symbols 0 [] [] Hsafe) as [d [Hrun Hkeys]].
  destruct (fetch_loop _ _ _ _ _ _ _ _) as [tr res]. cbn [snd] in Hrun. subst res.
  assert (Hlen : List.length d = List.length (distinct_symbols symbols)).
  { rewrite <- (length_map fst d), Hkeys. reflexivity. }
  pose proof (store_all_data_spec (commit_ok env) d db) as [added [_ [_ Hres]]].
  destruct (store_all_data (commit_ok env) d db) as [db' [[stored skipped] | ]];
    cbn [snd] in Hres; cbn [run_returned run_report run_table].
  - destruct Hres as [_ [_ [_ Hoks]]]. rewrite Hlen in Hoks.
    split; [eauto | split; [ | reflexivity]].
    split; [intros _; auto | reflexivity].
  - destruct Hres as [j [Hj Hfalse]]. rewrite Hlen in Hj.
    split; [eauto | split; [ | discriminate]].
    split; [discriminate | ].
    intros [_ Hoks]. rewrite (Hoks j Hj) in Hfalse. discriminate.
Qed.

Lemma sound_environment_parser_returns :
  parser_returns (provider sound_environment) (clock sound_environment) 0
    self_symbols.
Proof.
  intros j s ts Hj Hts. cbn in Hts. injection Hts as <-.
  assert (Hs : In s self_symbols) by (apply (nth_error_In _ _ Hj)).
  cbn in Hs. destruct Hs as [<- | [<- | [<- | [<- | [<- | []]]]]];
    eexists; vm_compute; reflexivity.
Qed.

Lemma run_returns_true_iff_witness :
  parser_returns (provider sound_environment) (clock sound_environment) 0
    self_symbols /\
  run_returned (run sound_environment self_symbols []) = Return true /\
  run_report (run sound_environment self_symbols []) =
    Some (generate_analytics_report
            (run_table (run sound_environment self_symbols [])) self_symbols).
Proof.
  split; [exact sound_environment_parser_returns | ].
  pose proof (run_returns_true_iff sound_environment self_symbols []
                sound_environment_parser_returns) as [_ [Hiff Hreport]].
  assert (Htrue : run_returned (run sound_environment self_symbols []) = Return true).
  { apply Hiff. split; [reflexivity | intros j _; reflexivity]. }
  split; [exact Htrue | apply Hreport, Htrue].
Defined.

(** ** Running the ingestion again, later *)

Lemma parse_record_restamp `{Builtins} (sym date_str : string) (values : json)
    (now1 now2 : Z) :
  parse_record sym date_str values now2 =
  match parse_record sym date_str values now1 with
  | Return r =>
      Return (mk_StockPrice (symbol r) (date r) (open_price r) (high_price r)
                (low_price r) (close_price r) (volume r) now2)
  | Raise e => Raise e
  end.
Proof.
  unfold parse_record.
  repeat match goal with
         | |- context [bind ?c _] => destruct c; cbn [bind]
         end; reflexivity.
Qed.

Lemma parse_loop_keys_clock `{Builtins} (sym : string) (c1 c2 : nat -> Z)
    (items : list (string * json)) :
  forall k1 k2 acc1 acc2,
    map key acc1 = map key acc2 ->
    match parse_loop sym c1 k1 items acc1, parse_loop sym c2 k2 items acc2 with
    | Return a, Return b => map key a = map key b
    | Raise e1, Raise e2 => e1 = e2
    | _, _ => False
    end.
Proof.
  induction items as [ | [date_str values] rest IH]; intros k1 k2 acc1 acc2 Hacc.
  - exact Hacc.
  - cbn [parse_loop].
    rewrite (parse_record_restamp sym date_str values (c1 k1) (c2 k2)).
    destruct (parse_record sym date_str values (c1 k1)) as [r | e];
      cbn [bind try_except_in].
    + apply IH. rewrite !map_app, Hacc. reflexivity.
    + destruct (existsb (exn_eqb e) [KeyError; ValueError]); cbn [bind].
      * apply IH, Hacc.
      * reflexivity.
Qed.

Lemma same_keys_dict_set (a b : dict (list StockPrice)) (s : string)
    (v1 v2 : list StockPrice) :
  same_keys a b -> map key v1 = map key v2 ->
  same_keys (dict_set a s v1) (dict_set b s v2).
Proof.
  intros Hab Hv. induction Hab as [ | [ka va] [kb vb] a b [Hk Hrecs] Hab IH];
    cbn [dict_set].
  - repeat constructor. exact Hv.
  - cbn [fst snd] in Hk, Hrecs. subst kb.
    destruct (String.eqb ka s).
    + constructor; [split; [reflexivity | exact Hv] | exact Hab].
    + constructor; [split; [reflexivity | exact Hrecs] | exact IH].
Qed.

Lemma fetch_loop_keys_clock `{Builtins} provider (c1 c2 : nat -> nat -> Z)
    delay len symbols :
  forall i acc1 acc2 tr,
    same_keys acc1 acc2 ->
    fst (fetch_loop provider c1 delay len i symbols acc1 tr) =
    fst (fetch_loop provider c2 delay len i symbols acc2 tr) /\
    match snd (fetch_loop provider c1 delay len i symbols acc1 tr),
          snd (fetch_loop provider c2 delay len i symbols acc2 tr) with
    | Return a, Return b => same_keys a b
    | Raise e1, Raise e2 => e1 = e2
    | _, _ => False
    end.
Proof.
  induction symbols as [ | s rest IH]; intros i acc1 acc2 tr Hacc.
  - cbn. auto.
  - cbn [fetch_loop].
    destruct (fetch_daily_data (provider i s)) as [time_series | e];
      [ | cbn; auto].
    destruct (if truthy time_series then time_series else None) as [ts | ].
    + pose proof (parse_loop_keys_clock s (c1 i) (c2 i)) as Hparse.
      unfold parse_stock_data.
      destruct (py_items ts) as [items | e]; cbn [bind]; [ | cbn; auto].
      specialize (Hparse items 0 0 [] [] eq_refl).
      destruct (parse_loop s (c1 i) 0 items []) as [recs1 | e1];
        destruct (parse_loop s (c2 i) 0 items []) as [recs2 | e2];
        try contradiction.
      * apply IH, same_keys_dict_set; assumption.
      * cbn. auto.
    + apply IH, same_keys_dict_set; [exact Hacc | reflexivity].
Qed.

Lemma same_keys_present (a b : dict (list StockPrice)) (db : table) :
  same_keys a b ->
  (forall s recs r, In (s, recs) a -> In r recs -> In (key r) (map key db)) ->
  (forall s recs r, In (s, recs) b -> In r recs -> In (key r) (map key db)) /\
  List.length b = List.length a /\
  total_records b = total_records a.
Proof.
  induction 1 as [ | [ka va] [kb vb] a b [Hk Hrecs] Hab IH]; intros Hall.
  - split; [intros s recs r [] | split; reflexivity].
  - cbn [fst snd] in Hk, Hrecs.
    destruct IH as [Hb [Hlen Htotal]].
    { intros s recs r Hin Hr. apply (Hall s recs r (or_intror Hin) Hr). }
    split; [ | split].
    + intros s recs r [E | Hin] Hr.
      * injection E as <- <-.
        apply (in_map key) in Hr. rewrite <- Hrecs in Hr.
        apply in_map_iff in Hr. destruct Hr as [r' [Hkey Hr']].
        rewrite <- Hkey. apply (Hall ka va r' (or_introl eq_refl) Hr').
      * apply (Hb s recs r Hin Hr).
    + cbn [List.length]. rewrite Hlen. reflexivity.
    + cbn [total_records fold_right snd]. fold (total_records a) (total_records b).
      rewrite Htotal, <- (length_map key vb), <- Hrecs, length_map. reflexivity.
Qed.

(** X13: after an ingestion that completed, an ingestion run again against
    the same provider answers, at any later time and whatever its commits
    do, leaves the table as it is; when its commits are accepted it reports
    nothing stored and as many records skipped as the first run handled. *)
Theorem rerun_adds_nothing `{Builtins} (env1 env2 : environment)
    (symbols : list string) (db db1 : table) (tr : list event)
    (stored skipped : nat) :
  fetch_and_store_data env1 symbols db = (tr, db1, Return (Some (stored, skipped))) ->
  provider env2 = provider env1 ->
  snd (fst (fetch_and_store_data env2 symbols db1)) = db1 /\
  fst (fst (fetch_and_store_data env2 symbols db1)) = tr /\
  ((forall j, commit_ok env2 j = true) ->
   snd (fetch_and_store_data env2 symbols db1) =
     Return (Some (0, stored + skipped))).
Proof.
  unfold fetch_and_store_data, fetch_multiple_symbols. intros Hfirst Hprov.
  rewrite Hprov.
  destruct (fetch_loop_keys_clock (provider env1) (clock env1) (clock env2) 12
              (List.length symbols) symbols 0 [] [] [] (Forall2_nil _))
    as [Htrace Hres].
  destruct (fetch_loop (provider env1) (clock env1) _ _ _ _ _ _) as [tr1 [d1 | e1]];
    [ | discriminate Hfirst].
  destruct (fetch_loop (provider env1) (clock env2) _ _ _ _ _ _) as [tr2 [d2 | e2]];
    cbn [fst snd] in Htrace, Hres; [ | contradiction].
  subst tr2.
  destruct (store_all_data_spec (commit_ok env1) d1 db) as [added [Hdb [_ Hsum]]].
  destruct (store_all_data (commit_ok env1) d1 db) as [db1' summary].
  injection Hfirst as <- <- ->. cbn [fst snd] in Hdb, Hsum.
  destruct Hsum as [_ [Htotal [Hkeys _]]]. rewrite <- Hdb in Hkeys.
  destruct (same_keys_present d1 d2 db1' Hres Hkeys) as [Hkeys2 [Hlen Htotal2]].
  destruct (store_all_data_present (commit_ok env2) d2 db1' Hkeys2) as [Hsame Hdone].
  destruct (store_all_data (commit_ok env2) d2 db1') as [db2 summary2] eqn:Hstore.
  cbn [fst snd] in *. split; [exact Hsame | split; [reflexivity | ]].
  intros Hoks. specialize (Hdone (fun j _ => Hoks j)).
  injection Hdone as _ ->. rewrite Htotal2, Htotal. reflexivity.
Qed.

Lemma rerun_adds_nothing_witness :
  snd (fetch_and_store_data sound_environment self_symbols []) =
    Return (Some (10, 0)) /\
  snd (fst (fetch_and_store_data later_environment self_symbols
              (snd (fst (fetch_and_store_data sound_environment self_symbols [])))))
    = snd (fst (fetch_and_store_data sound_environment self_symbols [])) /\
  snd (fetch_and_store_data later_environment self_symbols
         (snd (fst (fetch_and_store_data sound_environment self_symbols []))))
    = Return (Some (0, 10 + 0)).
Proof.
  split; [vm_compute; reflexivity | ].
  assert (Hfirst :
            fetch_and_store_data sound_environment self_symbols [] =
              (fst (fst (fetch_and_store_data sound_environment self_symbols [])),
               snd (fst (fetch_and_store_data sound_environment self_symbols [])),
               Return (Some (10, 0))))
    by (vm_compute; reflexivity).
  pose proof (rerun_adds_nothing sound_environment later_environment self_symbols
                [] _ _ 10 0 Hfirst eq_refl) as [Htable [_ Hsummary]].
  split; [exact Htable | exact (Hsummary (fun _ => eq_refl))].
Defined.

(** ** Starting the process *)

(** X14: the process ends with status 0 exactly when [DB_URL] and
    [ALPHA_VANTAGE_API_KEY] are both set to a non-empty text, the engine
    accepts the URL, and [run] on the five tracked symbols returns [True].
    With a setting missing, no run is started at all. *)
Theorem main_exit_status `{Builtins} (getenv : string -> option string)
    (create_engine : string -> option exn) (env : environment) (db : table) :
  (fst (Startup.main getenv create_engine env db) = 0%Z <->
   exists url k,
     getenv "DB_URL" = Some url /\ url <> EmptyString /\
     create_engine url = None /\
     getenv "ALPHA_VANTAGE_API_KEY" = Some k /\ k <> EmptyString /\
     run_returned (run env self_symbols db) = Return true) /\
  (Startup.unset (getenv "DB_URL") = true \/
   Startup.unset (getenv "ALPHA_VANTAGE_API_KEY") = true ->
   Startup.main getenv create_engine env db = (1%Z, None)).
Proof.
  unfold Startup.main, Startup.pipeline_init, Startup.manager_init,
    Startup.fetcher_init, Startup.unset.
  destruct (getenv "DB_URL") as [url | ]; cbn [bind].
  2:{ split; [ | reflexivity].
      split; [discriminate | intros [url [k [E _]]]; discriminate E]. }
  destruct (String.eqb_spec url EmptyString) as [-> | Hurl]; cbn [bind].
  { split; [ | reflexivity].
    split; [discriminate | ].
    intros [url [k [E [Hne _]]]]. injection E as <-. contradiction. }
  destruct (create_engine url) as [e | ] eqn:Hengine; cbn [bind].
  { split.
    - split; [discriminate | ].
      intros [url' [k [E [_ [Hnone _]]]]]. injection E as <-. congruence.
    - intros [E | Hkey]; [discriminate E | ].
      destruct (getenv "ALPHA_VANTAGE_API_KEY"); reflexivity. }
  destruct (getenv "ALPHA_VANTAGE_API_KEY") as [k | ]; cbn [bind].
  2:{ split; [ | reflexivity].
      split; [discriminate | intros [url' [k [_ [_ [_ [E _]]]]]]; discriminate E]. }
  destruct (String.eqb_spec k EmptyString) as [-> | Hk]; cbn [bind].
  { split; [ | reflexivity].
    split; [discriminate | ].
    intros [url' [k [_ [_ [_ [E [Hne _]]]]]]]. injection E as <-. contradiction. }
  cbn [Startup.symbols fst]. split.
  - destruct (run_returned (run env self_symbols db)) as [[ | ] | e].
    + split; [intros _ | reflexivity]. exists url, k. auto 10.
    + split; [discriminate | ].
      intros [url' [k' [_ [_ [_ [_ [_ E]]]]]]]. discriminate E.
    + split; [discriminate | ].
      intros [url' [k' [_ [_ [_ [_ [_ E]]]]]]]. discriminate E.
  - intros [E | E]; discriminate E.
Qed.

Lemma main_exit_status_witness :
  Startup.unset ((fun _ => None) "DB_URL") = true /\
  Startup.main (fun _ => None) engine_accepts sound_environment [] = (1%Z, None) /\
  fst (Startup.main settings_complete engine_accepts sound_environment []) = 0%Z.
Proof.
  split; [reflexivity | split].
  - apply (proj2 (main_exit_status (fun _ => None) engine_accepts
                    sound_environment [])).
    left. reflexivity.
  - apply (proj1 (main_exit_status settings_complete engine_accepts
                    sound_environment [])).
    exists "sqlite:///prices.db", "demo".
    split; [reflexivity | ]. split; [discriminate | ].
    split; [reflexivity | ]. split; [reflexivity | ].
    split; [discriminate | ]. vm_compute. reflexivity.
Defined.
